(** * meta_class/models.py: the catalogue and order schema

    A shallow embedding of the Django models declared in
    [DjangoModels-main/meta_class/models.py] and of the part of the
    framework's behaviour their declarations rely on: attribute lookup of
    reverse relation managers, field validation, inserts under
    [unique_together] and deletion under [on_delete].

    Conventions.
    - Python [int] is [Z].  A [Decimal] is an exact decimal fraction and a
      [float] an exact dyadic fraction; Python compares the three kinds of
      number exactly, so all of them are embedded in [Q] and compared there.
    - [None] in a nullable field is [None] of an [option].
    - A raised exception is the [Err] branch of [result].
    - What depends on the database in use (the integer ranges it reports to
      validation, the integers its columns hold, the decimal a column comes
      to hold, whether it enforces the length of a [varchar]) is a
      [Django.Backend]; the key a table hands out for a new row and the
      clock are arguments of the write. *)

From Stdlib Require Import ZArith QArith Lia Ascii String.
From stdpp Require Import base option list strings gmap.

Local Open Scope string_scope.
Local Open Scope list_scope.
Local Open Scope Z_scope.

(** ** Python values and exceptions *)

Module Py.

Inductive Error : Type :=
| AttributeError (cls attr : string)
| IntegrityError (table : string) (columns : list string)
| ValidationError (errors : list (string * string))
| InvalidOperation (column : string)
| OverflowError (table column : string)
| DataError (table column : string).

Inductive result (A : Type) : Type :=
| Ok (a : A)
| Err (e : Error).
Arguments Ok {A} a.
Arguments Err {A} e.

Definition bind {A B} (r : result A) (k : A → result B) : result B :=
  match r with
  | Ok a => k a
  | Err e => Err e
  end.

Definition is_ok {A} (r : result A) : bool :=
  match r with Ok _ => true | Err _ => false end.

(** [a < b] on tuples of integers: the first position where the two differ
    decides; a proper prefix is smaller. *)
Fixpoint tuple_lt (a b : list Z) : bool :=
  match a, b with
  | [], [] => false
  | [], _ :: _ => true
  | _ :: _, [] => false
  | x :: a', y :: b' => if x =? y then tuple_lt a' b' else x <? y
  end.

(** A [bool] used as an [int] in arithmetic. *)
Definition int_of_bool (b : bool) : Z := if b then 1 else 0.

(** [datetime.date]. *)
Record date : Type := Date { year : Z; month : Z; day : Z }.

(** [bool(x)] for an optional [date]: [None] is falsy and every [date] is
    truthy ([date] defines neither [__bool__] nor [__len__]). *)
Definition truthy_date (d : option date) : bool :=
  match d with Some _ => true | None => false end.

(** [len(s)]: the number of code points of a UTF-8 encoded text, that is of
    the bytes that do not continue a code point. *)
Definition continuation (c : ascii) : bool :=
  let n := nat_of_ascii c in ((128 <=? n) && (n <? 192))%nat.

Fixpoint len (s : string) : Z :=
  match s with
  | EmptyString => 0
  | String c s' => (if continuation c then 0 else 1) + len s'
  end.

End Py.

(** ** The relations of the schema and their reverse accessors *)

Module Django.

Inductive OnDelete : Type := CASCADE | SET_NULL.

Inductive RelationKind : Type := ForeignKey | OneToOneField | ManyToManyField.

(** One relational field as the source declares it: the class that holds
    it, its name, the class it points to, and its [on_delete], [null] and
    [related_name] arguments. *)
Record Relation : Type := {
  rel_model : string;
  rel_field : string;
  rel_kind : RelationKind;
  rel_to : string;
  rel_on_delete : option OnDelete;
  rel_null : bool;
  rel_related_name : option string;
}.

Definition relations : list Relation := [
  Build_Relation "Produto" "categoria" ForeignKey "Categoria"
    (Some SET_NULL) true (Some "produtos");
  Build_Relation "Cliente" "user" OneToOneField "User"
    (Some CASCADE) false None;
  Build_Relation "Pedido" "cliente" ForeignKey "Cliente"
    (Some CASCADE) false (Some "pedidos");
  Build_Relation "ItemPedido" "pedido" ForeignKey "Pedido"
    (Some CASCADE) false (Some "itens");
  Build_Relation "ItemPedido" "produto" ForeignKey "Produto"
    (Some CASCADE) false None;
  Build_Relation "AvaliacaoProduto" "produto" ForeignKey "Produto"
    (Some CASCADE) false (Some "avaliacoes");
  Build_Relation "AvaliacaoProduto" "cliente" ForeignKey "Cliente"
    (Some CASCADE) false None;
  Build_Relation "Estoque" "produto" OneToOneField "Produto"
    (Some CASCADE) false (Some "estoque_info");
  Build_Relation "Pagamento" "pedido" OneToOneField "Pedido"
    (Some CASCADE) false (Some "pagamento");
  Build_Relation "Promocao" "produtos" ManyToManyField "Produto"
    None false (Some "promocoes");
  Build_Relation "Carrinho" "cliente" OneToOneField "Cliente"
    (Some CASCADE) false (Some "carrinho");
  Build_Relation "ItemCarrinho" "carrinho" ForeignKey "Carrinho"
    (Some CASCADE) false (Some "itens");
  Build_Relation "ItemCarrinho" "produto" ForeignKey "Produto"
    (Some CASCADE) false None
].

Definition lower_ascii (c : ascii) : ascii :=
  let n := nat_of_ascii c in
  if ((65 <=? n) && (n <=? 90))%nat then ascii_of_nat (n + 32) else c.

Fixpoint lower (s : string) : string :=
  match s with
  | EmptyString => EmptyString
  | String c s' => String (lower_ascii c) (lower s')
  end.

(** [Options.model_name]: the class name in lower case. *)
Definition model_name (cls : string) : string := lower cls.

(** A relation has many objects on its reverse side unless it is
    one-to-one. *)
Definition multiple (k : RelationKind) : bool :=
  match k with OneToOneField => false | _ => true end.

(** [ForeignObjectRel.get_accessor_name]: a [related_name] replaces the
    default name, which is the lower-case class name followed by [_set]
    when the reverse side is multiple. *)
Definition get_accessor_name (r : Relation) : string :=
  match rel_related_name r with
  | Some name => name
  | None =>
      model_name (rel_model r) +:+ (if multiple (rel_kind r) then "_set" else "")
  end.

(** The relations that point to [cls]. *)
Definition related_objects (cls : string) : list Relation :=
  filter (λ r, rel_to r = cls) relations.

(** The relation whose reverse accessor on [cls] is called [attr]. *)
Definition reverse_accessor (cls attr : string) : option Relation :=
  find (λ r, bool_decide (get_accessor_name r = attr)) (related_objects cls).

(** [QuerySet.count] *)
Definition count {A} (qs : list A) : Z := Z.of_nat (length qs).

Definition declared (model field : string) : option Relation :=
  find (λ r, bool_decide (rel_model r = model ∧ rel_field r = field)) relations.

(** *** Field validation

    [Field.clean] as [Model.clean_fields] calls it: [validate] (choices,
    null, blank) and then [run_validators].  The value is already of the
    field's Python type, so [to_python] is the identity.  The digit count of
    a [DecimalField] ([DecimalValidator]) and the length bound of a
    [CharField] ([MaxLengthValidator]) are left out: the properties below
    are about range and choice errors, which those two validators neither
    add nor remove. *)

Inductive Validator : Type :=
| MinValueValidator (limit_value : Q)
| MaxValueValidator (limit_value : Q).

Definition Qlt_bool (a b : Q) : bool := negb (Qle_bool b a).

(** [BaseValidator.__call__]: the error code when [compare] holds, which
    is [a < b] for the minimum and [a > b] for the maximum. *)
Definition run_validator (v : Validator) (value : Q) : option string :=
  match v with
  | MinValueValidator limit =>
      if Qlt_bool value limit then Some "min_value" else None
  | MaxValueValidator limit =>
      if Qlt_bool limit value then Some "max_value" else None
  end.

Inductive FieldType : Type :=
| IntegerField
| PositiveIntegerField
| DecimalField (max_digits decimal_places : Z)
| CharField (max_length : Z).

Record Field (V : Type) : Type := {
  name : string;
  ftype : FieldType;
  validators : list Validator;
  choices : option (list (V * string));
  blank : bool;
  null : bool;
  default : option V;
}.
Arguments name {V} _.
Arguments ftype {V} _.
Arguments validators {V} _.
Arguments choices {V} _.
Arguments blank {V} _.
Arguments null {V} _.
Arguments default {V} _.

(** What cleaning needs to know of a Python type: which values count as
    empty ([Field.empty_values], [None] apart), the number a value stands
    for, and equality. *)
Class PyValue (V : Type) : Type := {
  is_empty : V → bool;
  as_number : V → option Q;
  value_eqb : V → V → bool;
}.

#[global] Instance PyValue_int : PyValue Z := {|
  is_empty _ := false;
  as_number z := Some (inject_Z z);
  value_eqb := Z.eqb;
|}.

#[global] Instance PyValue_Decimal : PyValue Q := {|
  is_empty _ := false;
  as_number q := Some q;
  value_eqb := Qeq_bool;
|}.

#[global] Instance PyValue_str : PyValue string := {|
  is_empty s := bool_decide (s = "");
  as_number _ := None;
  value_eqb := String.eqb;
|}.

(** The nearest integer, a tie going to the even one ([ROUND_HALF_EVEN]). *)
Definition round_half_even (x : Q) : Z :=
  let d := Z.pos (Qden x) in
  let q := Qnum x / d in
  match 2 * (Qnum x mod d) ?= d with
  | Lt => q
  | Gt => q + 1
  | Eq => if Z.even q then q else q + 1
  end.

(** [utils.format_number]: the value quantized to [decimal_places] under a
    precision of [max_digits]; none when the result has more digits. *)
Definition format_number (max_digits decimal_places : Z) (x : Q) : option Q :=
  let n := round_half_even (x * inject_Z (10 ^ decimal_places)) in
  if Z.abs n <? 10 ^ max_digits
  then Some (n # Z.to_pos (10 ^ decimal_places))
  else None.

(** What the schema asks of the database in use.
    - [integer_field_range]: [DatabaseOperations.integer_field_range], the
      least and greatest value validation adds for an integer field, each
      of which a backend may leave out;
    - [column_range]: the integers a column of the field type holds; a
      value outside it is refused when the row is written;
    - [adapt_decimalfield_value]: [DatabaseOperations.adapt_decimalfield_value]
      and the column behind it, given [max_digits] and [decimal_places]: the
      decimal the column comes to hold, none when the value is refused;
    - [varchar_enforced]: whether a text longer than [max_length] is
      refused when the row is written. *)
Record Backend : Type := {
  integer_field_range : FieldType → option Z * option Z;
  column_range : FieldType → Z * Z;
  adapt_decimalfield_value : Z → Z → Q → option Q;
  varchar_enforced : bool;
}.

(** SQLite: 64-bit integers in validation and in the columns, decimals
    written as the text [utils.format_number] gives, no length check. *)
Definition sqlite : Backend := {|
  integer_field_range t :=
    match t with
    | PositiveIntegerField => (Some 0, Some 9223372036854775807)
    | _ => (Some (-9223372036854775808), Some 9223372036854775807)
    end;
  column_range _ := (-9223372036854775808, 9223372036854775807);
  adapt_decimalfield_value := format_number;
  varchar_enforced := false;
|}.

(** SQLite as older releases of the framework drive it: no range is
    reported to validation. *)
Definition sqlite_no_range : Backend := {|
  integer_field_range _ := (None, None);
  column_range _ := (-9223372036854775808, 9223372036854775807);
  adapt_decimalfield_value := format_number;
  varchar_enforced := false;
|}.

(** What every supported database grants: the values from -2147483648 to
    2147483647 of an [IntegerField], and from 0 to 2147483647 of a
    [PositiveIntegerField], are safe, in validation and in the column; the
    least value validation adds for a [PositiveIntegerField], if any, is
    0. *)
Record supported (backend : Backend) : Prop := {
  positive_min :
    ∀ lo, (integer_field_range backend PositiveIntegerField).1 = Some lo →
          lo = 0;
  positive_max :
    ∀ hi, (integer_field_range backend PositiveIntegerField).2 = Some hi →
          2147483647 ≤ hi;
  integer_min :
    ∀ lo, (integer_field_range backend IntegerField).1 = Some lo →
          lo ≤ -2147483648;
  integer_max :
    ∀ hi, (integer_field_range backend IntegerField).2 = Some hi →
          2147483647 ≤ hi;
  positive_column :
    (column_range backend PositiveIntegerField).1 ≤ 0
    ∧ 2147483647 ≤ (column_range backend PositiveIntegerField).2;
  integer_column :
    (column_range backend IntegerField).1 ≤ -2147483648
    ∧ 2147483647 ≤ (column_range backend IntegerField).2;
}.

Definition min_at_least (lo : Z) (v : Validator) : bool :=
  match v with
  | MinValueValidator limit => Qle_bool (inject_Z lo) limit
  | MaxValueValidator _ => false
  end.

Definition max_at_most (hi : Z) (v : Validator) : bool :=
  match v with
  | MaxValueValidator limit => Qle_bool limit (inject_Z hi)
  | MinValueValidator _ => false
  end.

(** [IntegerField.validators]: the declared validators, followed by the
    bounds the database reports for the column type, each unless a declared
    validator is at least as strict; other fields keep the declared ones. *)
Definition field_validators {V} (backend : Backend) (f : Field V)
  : list Validator :=
  match ftype f with
  | IntegerField | PositiveIntegerField =>
      let '(min_value, max_value) := integer_field_range backend (ftype f) in
      let vs :=
        match min_value with
        | Some lo =>
            if existsb (min_at_least lo) (validators f) then validators f
            else validators f ++ [MinValueValidator (inject_Z lo)]
        | None => validators f
        end in
      match max_value with
      | Some hi =>
          if existsb (max_at_most hi) vs then vs
          else vs ++ [MaxValueValidator (inject_Z hi)]
      | None => vs
      end
  | _ => validators f
  end.

Section Clean.
Context {V : Type} `{PyValue V}.
Variable backend : Backend.

Definition in_empty_values (value : option V) : bool :=
  match value with
  | None => true
  | Some v => is_empty v
  end.

(** The last two tests of [Field.validate], reached by an empty value. *)
Definition validate_empty (f : Field V) (value : option V) : option string :=
  if bool_decide (value = None) && negb (null f) then Some "null"
  else if negb (blank f) then Some "blank"
  else None.

(** [Field.validate]: the code of the error it raises, if any. *)
Definition validate (f : Field V) (value : option V) : option string :=
  match value with
  | Some v =>
      if is_empty v then validate_empty f value
      else match choices f with
           | Some options =>
               if existsb (λ o, value_eqb v o.1) options then None
               else Some "invalid_choice"
           | None => None
           end
  | None => validate_empty f value
  end.

(** [Field.run_validators]: nothing on an empty value, otherwise the
    codes of all validators that fail. *)
Definition run_validators (f : Field V) (value : option V) : list string :=
  match value with
  | Some v =>
      if is_empty v then []
      else match as_number v with
           | Some x =>
               omap (λ val, run_validator val x) (field_validators backend f)
           | None => []
           end
  | None => []
  end.

(** The error codes [Model.clean_fields] records for the field: none
    when the field is [blank] and the value empty, else those of
    [Field.clean]. *)
Definition clean (f : Field V) (value : option V) : list string :=
  if blank f && in_empty_values value then []
  else match validate f value with
       | Some code => [code]
       | None => run_validators f value
       end.

(** The entries of the [ValidationError]: field name and code. *)
Definition field_errors (f : Field V) (value : option V)
  : list (string * string) :=
  (λ code, (name f, code)) <$> clean f value.

(** [Field.get_default] for a value left out of the constructor call. *)
Definition get_default (f : Field V) (given : option V) : option V :=
  match given with
  | Some v => Some v
  | None => default f
  end.

End Clean.

(** [instance.full_clean()] and then the write: the write is run only when
    cleaning reports nothing; otherwise [ValidationError] carries what it
    reported. *)
Definition full_clean_then {A} (errors : list (string * string))
    (write : Py.result A) : Py.result A :=
  match errors with
  | [] => write
  | _ :: _ => Py.Err (Py.ValidationError errors)
  end.

(** *** Values on their way to a column *)

(** [DecimalField.get_db_prep_save]: the decimal as the column comes to
    hold it. *)
Definition adapt_decimal (backend : Backend) (column : string)
    (max_digits decimal_places : Z) (x : Q) : Py.result Q :=
  match adapt_decimalfield_value backend max_digits decimal_places x with
  | Some y => Py.Ok y
  | None => Py.Err (Py.InvalidOperation column)
  end.

(** An integer bound to its column: refused outside the range of the
    column (with [OverflowError], by the SQLite driver). *)
Definition adapt_integer (backend : Backend) (table column : string)
    (t : FieldType) (z : Z) : Py.result Z :=
  if ((column_range backend t).1 <=? z) && (z <=? (column_range backend t).2)
  then Py.Ok z
  else Py.Err (Py.OverflowError table column).

(** A text bound to a [varchar] column. *)
Definition adapt_varchar (backend : Backend) (table column : string)
    (max_length : Z) (s : string) : Py.result string :=
  if varchar_enforced backend && (max_length <? Py.len s)
  then Py.Err (Py.DataError table column)
  else Py.Ok s.

(** *** Tables: inserts and deletions

    A table is the list of its rows.  A row is first brought to what its
    columns hold ([db_prep]); [INSERT] then stores it under the key [k] the
    table hands out, and is refused with [IntegrityError] by a key that is
    taken, by a [CHECK] of the column type, by a reference to a missing row,
    or by a [unique_together] key that is already stored. *)

Section Table.
Context {R : Type}.
Variable table : string.
Variable pk : R → Z.
Variable set_pk : Z → R → R.
Variable column : string → R → option Z.
Variable unique_together : list (list string).
Variable checks : list (string * (R → bool)).
Variable db_prep : R → Py.result R.

(** Two rows agree on every column of the key; a missing ([NULL]) value
    agrees with nothing. *)
Definition same_key (cols : list string) (a b : R) : bool :=
  forallb (λ c, match column c a, column c b with
                | Some x, Some y => x =? y
                | _, _ => false
                end) cols.

(** The constraints of the table on a row ready to be stored. *)
Definition constrained (rows : list R) (k : Z) (r : R) : Py.result (list R) :=
  if bool_decide (k ∈ pk <$> rows) then Py.Err (Py.IntegrityError table ["id"])
  else
    match find (λ c, negb (c.2 r)) checks with
    | Some c => Py.Err (Py.IntegrityError table [c.1])
    | None =>
        match find (λ cols, existsb (same_key cols r) rows) unique_together with
        | Some cols => Py.Err (Py.IntegrityError table cols)
        | None => Py.Ok (rows ++ [set_pk k r])
        end
    end.

Definition insert (rows : list R) (k : Z) (r : R) : Py.result (list R) :=
  Py.bind (db_prep r) (constrained rows k).

(** What [Collector.collect] schedules for a [SET_NULL] relation: the
    rows whose foreign key [fk] points to the deleted row [target] keep
    everything but that reference; they are updated in place, not saved. *)
Definition set_null_rows (fk : R → option Z) (set_null : R → R)
    (target : Z) (rows : list R) : list R :=
  (λ r, if decide (fk r = Some target) then set_null r else r) <$> rows.

End Table.

End Django.

(** ** The models *)

Module Categoria.
Record t : Type := Make { id : Z; nome : string }.
End Categoria.

Module Produto.

(** The [float] that the literal [0.01] denotes. *)
Definition float_0_01 : Q := 5764607523034235 # 576460752303423488.

Definition preco_field : Django.Field Q := {|
  Django.name := "preco";
  Django.ftype := Django.DecimalField 10 2;
  Django.validators := [Django.MinValueValidator float_0_01];
  Django.choices := None;
  Django.blank := false;
  Django.null := false;
  Django.default := None;
|}.

Definition estoque_field : Django.Field Z := {|
  Django.name := "estoque";
  Django.ftype := Django.IntegerField;
  Django.validators := [Django.MinValueValidator 0];
  Django.choices := None;
  Django.blank := false;
  Django.null := false;
  Django.default := Some 0;
|}.

Record t : Type := Make {
  id : Z;
  nome : string;
  descricao : string;
  preco : Q;
  categoria : option Z;
  ativo : bool;
  estoque : Z;
  data_cadastro : Z;
  data_atualizacao : Z;
}.

Definition set_id (i : Z) (p : t) : t :=
  Make i (nome p) (descricao p) (preco p) (categoria p) (ativo p) (estoque p)
    (data_cadastro p) (data_atualizacao p).

Definition set_categoria (c : option Z) (p : t) : t :=
  Make (id p) (nome p) (descricao p) (preco p) c (ativo p) (estoque p)
    (data_cadastro p) (data_atualizacao p).

(** [auto_now_add] and [auto_now] on a first save at time [agora]. *)
Definition stamp (agora : Z) (p : t) : t :=
  Make (id p) (nome p) (descricao p) (preco p) (categoria p) (ativo p)
    (estoque p) agora agora.

(** The row as its columns hold it: [nome] is a [varchar(100)], [preco] a
    decimal of 10 digits with 2 places, [estoque] an integer. *)
Definition db_prep (backend : Django.Backend) (p : t) : Py.result t :=
  Py.bind (Django.adapt_decimal backend "preco" 10 2 (preco p)) (λ preco',
  Py.bind (Django.adapt_varchar backend "Produto" "nome" 100 (nome p)) (λ nome',
  Py.bind (Django.adapt_integer backend "Produto" "estoque"
             Django.IntegerField (estoque p)) (λ estoque',
  Py.Ok (Make (id p) nome' (descricao p) preco' (categoria p) (ativo p)
           estoque' (data_cadastro p) (data_atualizacao p))))).

(** Two product rows that agree on every column but [categoria]. *)
Definition same_but_categoria (p p' : t) : Prop :=
  id p' = id p ∧ nome p' = nome p ∧ descricao p' = descricao p
  ∧ preco p' = preco p ∧ ativo p' = ativo p ∧ estoque p' = estoque p
  ∧ data_cadastro p' = data_cadastro p
  ∧ data_atualizacao p' = data_atualizacao p.

(** [em_estoque] *)
Definition em_estoque (self : t) : bool := bool_decide (estoque self > 0).

End Produto.

Module Cliente.

Definition ESTADOS_BRASILEIROS : list (string * string) := [
  ("AC", "Acre"); ("AL", "Alagoas"); ("AP", "Amapá"); ("AM", "Amazonas");
  ("BA", "Bahia"); ("CE", "Ceará"); ("DF", "Distrito Federal");
  ("ES", "Espírito Santo"); ("GO", "Goiás"); ("MA", "Maranhão");
  ("MT", "Mato Grosso"); ("MS", "Mato Grosso do Sul"); ("MG", "Minas Gerais");
  ("PA", "Pará"); ("PB", "Paraíba"); ("PR", "Paraná"); ("PE", "Pernambuco");
  ("PI", "Piauí"); ("RJ", "Rio de Janeiro"); ("RN", "Rio Grande do Norte");
  ("RS", "Rio Grande do Sul"); ("RO", "Rondônia"); ("RR", "Roraima");
  ("SC", "Santa Catarina"); ("SP", "São Paulo"); ("SE", "Sergipe");
  ("TO", "Tocantins")
].

Definition estado_field : Django.Field string := {|
  Django.name := "estado";
  Django.ftype := Django.CharField 2;
  Django.validators := [];
  Django.choices := Some ESTADOS_BRASILEIROS;
  Django.blank := false;
  Django.null := false;
  Django.default := None;
|}.

Record t : Type := Make {
  id : Z;
  user : Z;
  endereco : string;
  cidade : string;
  estado : string;
  cep : string;
  telefone : option string;
  data_nascimento : option Py.date;
}.

(** [idade]; [hoje] is what [date.today()] returns. *)
Definition idade (hoje : Py.date) (self : t) : option Z :=
  if Py.truthy_date (data_nascimento self) then
    nascimento ← data_nascimento self;
    Some (Py.year hoje - Py.year nascimento
          - Py.int_of_bool
              (Py.tuple_lt [Py.month hoje; Py.day hoje]
                           [Py.month nascimento; Py.day nascimento]))
  else None.

(** [(m1, d1) < (m2, d2)] on pairs, spelled out. *)
Definition earlier_in_year (a b : Py.date) : Prop :=
  Py.month a < Py.month b ∨ (Py.month a = Py.month b ∧ Py.day a < Py.day b).

#[global] Instance earlier_in_year_dec a b : Decision (earlier_in_year a b).
Proof. unfold earlier_in_year. apply _. Defined.

End Cliente.

Module Pedido.
Record t : Type := Make {
  id : Z;
  cliente : Z;
  data_pedido : Z;
  status : string;
  total : Q;
  endereco_entrega : string;
  cep_entrega : string;
}.
End Pedido.

Module ItemPedido.

Definition quantidade_field : Django.Field Z := {|
  Django.name := "quantidade";
  Django.ftype := Django.PositiveIntegerField;
  Django.validators := [];
  Django.choices := None;
  Django.blank := false;
  Django.null := false;
  Django.default := Some 1;
|}.

Definition unique_together : list (list string) := [["pedido"; "produto"]].

Record t : Type := Make {
  id : Z;
  pedido : Z;
  produto : Z;
  quantidade : Z;
  preco_unitario : Q;
  subtotal : Q;
}.

(** The constructor call, [quantidade] being optional; the row has no
    primary key yet (written 0 here and replaced on insert). *)
Definition new (pedido produto : Z) (quantidade : option Z)
    (preco_unitario subtotal : Q) : option t :=
  q ← Django.get_default quantidade_field quantidade;
  Some (Make 0 pedido produto q preco_unitario subtotal).

Definition set_id (i : Z) (r : t) : t :=
  Make i (pedido r) (produto r) (quantidade r) (preco_unitario r) (subtotal r).

(** The row as its columns hold it: the two decimals have 10 digits with 2
    places, [quantidade] is a positive integer column. *)
Definition db_prep (backend : Django.Backend) (r : t) : Py.result t :=
  Py.bind (Django.adapt_decimal backend "preco_unitario" 10 2 (preco_unitario r)) (λ pu,
  Py.bind (Django.adapt_decimal backend "subtotal" 10 2 (subtotal r)) (λ st,
  Py.bind (Django.adapt_integer backend "ItemPedido" "quantidade"
             Django.PositiveIntegerField (quantidade r)) (λ q,
  Py.Ok (Make (id r) (pedido r) (produto r) q pu st)))).

Definition column (c : string) (r : t) : option Z :=
  if String.eqb c "id" then Some (id r)
  else if String.eqb c "pedido" then Some (pedido r)
  else if String.eqb c "produto" then Some (produto r)
  else if String.eqb c "quantidade" then Some (quantidade r)
  else None.

End ItemPedido.

Module AvaliacaoProduto.

Definition nota_field : Django.Field Z := {|
  Django.name := "nota";
  Django.ftype := Django.PositiveIntegerField;
  Django.validators := [Django.MinValueValidator 1; Django.MaxValueValidator 5];
  Django.choices := None;
  Django.blank := false;
  Django.null := false;
  Django.default := None;
|}.

Definition unique_together : list (list string) := [["produto"; "cliente"]].

Record t : Type := Make {
  id : Z;
  produto : Z;
  cliente : Z;
  nota : Z;
  comentario : option string;
  data_avaliacao : Z;
}.

Definition set_id (i : Z) (r : t) : t :=
  Make i (produto r) (cliente r) (nota r) (comentario r) (data_avaliacao r).

(** [auto_now_add] on a first save at time [agora]. *)
Definition stamp (agora : Z) (r : t) : t :=
  Make (id r) (produto r) (cliente r) (nota r) (comentario r) agora.

(** The row as its columns hold it: [nota] is a positive integer column. *)
Definition db_prep (backend : Django.Backend) (r : t) : Py.result t :=
  Py.bind (Django.adapt_integer backend "AvaliacaoProduto" "nota"
             Django.PositiveIntegerField (nota r)) (λ n,
  Py.Ok (Make (id r) (produto r) (cliente r) n (comentario r)
           (data_avaliacao r))).

Definition column (c : string) (r : t) : option Z :=
  if String.eqb c "id" then Some (id r)
  else if String.eqb c "produto" then Some (produto r)
  else if String.eqb c "cliente" then Some (cliente r)
  else if String.eqb c "nota" then Some (nota r)
  else None.

Section Labels.
(** [_], that is [gettext_lazy]: the text of a message in the active
    language. *)
Variable gettext : string → string.

Definition notas : gmap Z string :=
  {[ 1 := gettext "Péssimo";
     2 := gettext "Ruim";
     3 := gettext "Regular";
     4 := gettext "Bom";
     5 := gettext "Excelente" ]}.

(** [nota_extenso]: [notas.get(self.nota, _('Não Avaliado'))] *)
Definition nota_extenso (self : t) : string :=
  default (gettext "Não Avaliado") (notas !! nota self).
End Labels.

End AvaliacaoProduto.

Module Estoque.

Definition quantidade_field : Django.Field Z := {|
  Django.name := "quantidade";
  Django.ftype := Django.IntegerField;
  Django.validators := [Django.MinValueValidator 0];
  Django.choices := None;
  Django.blank := false;
  Django.null := false;
  Django.default := Some 0;
|}.

Record t : Type := Make {
  id : Z;
  produto : Z;
  quantidade : Z;
  ultima_atualizacao : Z;
}.

(** A property body runs on the instance and hands it back, as it is
    after the call, together with the value. *)
Definition getter (A : Type) : Type := t → A * t.

Definition ret {A} (a : A) : getter A := λ self, (a, self).

Definition attr {A} (field : t → A) : getter A := λ self, (field self, self).

Definition bind {A B} (m : getter A) (k : A → getter B) : getter B :=
  λ self, let '(a, self') := m self in k a self'.

(** [disponivel] *)
Definition disponivel : getter bool :=
  bind (attr quantidade) (λ q, ret (bool_decide (q > 0))).

(** [precisa_reposicao] *)
Definition precisa_reposicao : getter bool :=
  bind (attr quantidade) (λ q, ret (bool_decide (q < 5))).

End Estoque.

Module Promocao.

Definition desconto_percentual_field : Django.Field Q := {|
  Django.name := "desconto_percentual";
  Django.ftype := Django.DecimalField 5 2;
  Django.validators :=
    [Django.MinValueValidator 0.00; Django.MaxValueValidator 100.00];
  Django.choices := None;
  Django.blank := false;
  Django.null := false;
  Django.default := Some 0.00%Q;
|}.

End Promocao.

Module Carrinho.
Record t : Type := Make {
  id : Z;
  cliente : Z;
  data_criacao : Z;
  ultima_atualizacao : Z;
}.
End Carrinho.

Module ItemCarrinho.

Definition quantidade_field : Django.Field Z := {|
  Django.name := "quantidade";
  Django.ftype := Django.PositiveIntegerField;
  Django.validators := [];
  Django.choices := None;
  Django.blank := false;
  Django.null := false;
  Django.default := Some 1;
|}.

Definition unique_together : list (list string) := [["carrinho"; "produto"]].

Record t : Type := Make {
  id : Z;
  carrinho : Z;
  produto : Z;
  quantidade : Z;
  preco_unitario : Q;
  subtotal : Q;
}.

Definition new (carrinho produto : Z) (quantidade : option Z)
    (preco_unitario subtotal : Q) : option t :=
  q ← Django.get_default quantidade_field quantidade;
  Some (Make 0 carrinho produto q preco_unitario subtotal).

Definition set_id (i : Z) (r : t) : t :=
  Make i (carrinho r) (produto r) (quantidade r) (preco_unitario r) (subtotal r).

(** The row as its columns hold it: the two decimals have 10 digits with 2
    places, [quantidade] is a positive integer column. *)
Definition db_prep (backend : Django.Backend) (r : t) : Py.result t :=
  Py.bind (Django.adapt_decimal backend "preco_unitario" 10 2 (preco_unitario r)) (λ pu,
  Py.bind (Django.adapt_decimal backend "subtotal" 10 2 (subtotal r)) (λ st,
  Py.bind (Django.adapt_integer backend "ItemCarrinho" "quantidade"
             Django.PositiveIntegerField (quantidade r)) (λ q,
  Py.Ok (Make (id r) (carrinho r) (produto r) q pu st)))).

Definition column (c : string) (r : t) : option Z :=
  if String.eqb c "id" then Some (id r)
  else if String.eqb c "carrinho" then Some (carrinho r)
  else if String.eqb c "produto" then Some (produto r)
  else if String.eqb c "quantidade" then Some (quantidade r)
  else None.

End ItemCarrinho.

(** ** The database *)

(** The stored rows, one table per model, in the order the database returns
    them; [promocao_produtos] is the join table of [Promocao.produtos],
    a pair being (promotion, product). *)
Record DB : Type := {
  categorias : list Categoria.t;
  produtos : list Produto.t;
  clientes : list Cliente.t;
  pedidos : list Pedido.t;
  itens_pedido : list ItemPedido.t;
  avaliacoes : list AvaliacaoProduto.t;
  estoques : list Estoque.t;
  promocao_produtos : list (Z * Z);
  carrinhos : list Carrinho.t;
  itens_carrinho : list ItemCarrinho.t;
}.

Definition empty_db : DB := Build_DB [] [] [] [] [] [] [] [] [] [].

Definition with_categorias (v : list Categoria.t) (db : DB) : DB :=
  Build_DB v (produtos db) (clientes db) (pedidos db) (itens_pedido db)
    (avaliacoes db) (estoques db) (promocao_produtos db) (carrinhos db)
    (itens_carrinho db).

Definition with_produtos (v : list Produto.t) (db : DB) : DB :=
  Build_DB (categorias db) v (clientes db) (pedidos db) (itens_pedido db)
    (avaliacoes db) (estoques db) (promocao_produtos db) (carrinhos db)
    (itens_carrinho db).

Definition with_itens_pedido (v : list ItemPedido.t) (db : DB) : DB :=
  Build_DB (categorias db) (produtos db) (clientes db) (pedidos db) v
    (avaliacoes db) (estoques db) (promocao_produtos db) (carrinhos db)
    (itens_carrinho db).

Definition with_avaliacoes (v : list AvaliacaoProduto.t) (db : DB) : DB :=
  Build_DB (categorias db) (produtos db) (clientes db) (pedidos db)
    (itens_pedido db) v (estoques db) (promocao_produtos db) (carrinhos db)
    (itens_carrinho db).

Definition with_itens_carrinho (v : list ItemCarrinho.t) (db : DB) : DB :=
  Build_DB (categorias db) (produtos db) (clientes db) (pedidos db)
    (itens_pedido db) (avaliacoes db) (estoques db) (promocao_produtos db)
    (carrinhos db) v.

(** ** Derived values over related rows *)

Module CategoriaProps.

(** [self.<attr>] read as a related manager.  Only [Produto.categoria]
    points to [Categoria], so a manager of a category ranges over the
    products whose [categoria] is this category; any other attribute name
    has no manager behind it. *)
Definition manager (db : DB) (self : Categoria.t) (attr : string)
  : Py.result (list Produto.t) :=
  match Django.reverse_accessor "Categoria" attr with
  | Some _ =>
      Py.Ok (filter (λ p, Produto.categoria p = Some (Categoria.id self))
                    (produtos db))
  | None => Py.Err (Py.AttributeError "Categoria" attr)
  end.

(** [total_produtos]: [self.produto_set.count()] *)
Definition total_produtos (db : DB) (self : Categoria.t) : Py.result Z :=
  Py.bind (manager db self "produto_set") (λ qs, Py.Ok (Django.count qs)).

(** [produtos_ativos]: [self.produto_set.filter(ativo=True).count()] *)
Definition produtos_ativos (db : DB) (self : Categoria.t) : Py.result Z :=
  Py.bind (manager db self "produto_set")
    (λ qs, Py.Ok (Django.count (filter (λ p, Produto.ativo p = true) qs))).

End CategoriaProps.

Module CarrinhoProps.

(** [self.<attr>] read as a related manager.  Only [ItemCarrinho.carrinho]
    points to [Carrinho]. *)
Definition manager (db : DB) (self : Carrinho.t) (attr : string)
  : Py.result (list ItemCarrinho.t) :=
  match Django.reverse_accessor "Carrinho" attr with
  | Some _ =>
      Py.Ok (filter (λ i, ItemCarrinho.carrinho i = Carrinho.id self)
                    (itens_carrinho db))
  | None => Py.Err (Py.AttributeError "Carrinho" attr)
  end.

(** [numero_itens]: [self.itemcarrinho_set.count()] *)
Definition numero_itens (db : DB) (self : Carrinho.t) : Py.result Z :=
  Py.bind (manager db self "itemcarrinho_set")
    (λ qs, Py.Ok (Django.count qs)).

(** The loop of [total_carrinho]: [total = 0], then
    [total += item.subtotal] for each item in turn. *)
Definition sum_subtotals (items : list ItemCarrinho.t) : Q :=
  fold_left (λ total item, (total + ItemCarrinho.subtotal item)%Q) items (0%Q).

(** [total_carrinho] *)
Definition total_carrinho (db : DB) (self : Carrinho.t) : Py.result Q :=
  Py.bind (manager db self "itemcarrinho_set")
    (λ qs, Py.Ok (sum_subtotals qs)).

End CarrinhoProps.

(** ** Writes *)

Module Store.

(** The check of a foreign key column: the row it names is stored. *)
Definition stored (ids : list Z) (ref : Z) : bool := bool_decide (ref ∈ ids).

(** [PositiveIntegerField] columns carry [CHECK (col >= 0)]. *)
Definition non_negative (z : Z) : bool := 0 <=? z.

(** [Produto.objects.create], that is [save] of a new product, at time
    [agora] and under the key [k]: the row is stamped and inserted; no
    validator runs on this path. *)
Definition create_Produto (backend : Django.Backend) (db : DB) (agora k : Z)
    (p : Produto.t) : Py.result DB :=
  Py.bind
    (Django.insert "Produto" Produto.id Produto.set_id (λ _ _, None) []
       [("categoria",
         λ r, match Produto.categoria r with
              | Some c => stored (Categoria.id <$> categorias db) c
              | None => true
              end)]
       (Produto.db_prep backend)
       (produtos db) k (Produto.stamp agora p))
    (λ rows, Py.Ok (with_produtos rows db)).

Definition create_ItemPedido (backend : Django.Backend) (db : DB) (k : Z)
    (r : ItemPedido.t) : Py.result DB :=
  Py.bind
    (Django.insert "ItemPedido" ItemPedido.id ItemPedido.set_id
       ItemPedido.column ItemPedido.unique_together
       [("quantidade", λ r, non_negative (ItemPedido.quantidade r));
        ("pedido", λ r, stored (Pedido.id <$> pedidos db) (ItemPedido.pedido r));
        ("produto", λ r, stored (Produto.id <$> produtos db) (ItemPedido.produto r))]
       (ItemPedido.db_prep backend)
       (itens_pedido db) k r)
    (λ rows, Py.Ok (with_itens_pedido rows db)).

Definition create_AvaliacaoProduto (backend : Django.Backend) (db : DB)
    (agora k : Z) (r : AvaliacaoProduto.t) : Py.result DB :=
  Py.bind
    (Django.insert "AvaliacaoProduto" AvaliacaoProduto.id
       AvaliacaoProduto.set_id AvaliacaoProduto.column
       AvaliacaoProduto.unique_together
       [("nota", λ r, non_negative (AvaliacaoProduto.nota r));
        ("produto",
         λ r, stored (Produto.id <$> produtos db) (AvaliacaoProduto.produto r));
        ("cliente",
         λ r, stored (Cliente.id <$> clientes db) (AvaliacaoProduto.cliente r))]
       (AvaliacaoProduto.db_prep backend)
       (avaliacoes db) k (AvaliacaoProduto.stamp agora r))
    (λ rows, Py.Ok (with_avaliacoes rows db)).

Definition create_ItemCarrinho (backend : Django.Backend) (db : DB) (k : Z)
    (r : ItemCarrinho.t) : Py.result DB :=
  Py.bind
    (Django.insert "ItemCarrinho" ItemCarrinho.id ItemCarrinho.set_id
       ItemCarrinho.column ItemCarrinho.unique_together
       [("quantidade", λ r, non_negative (ItemCarrinho.quantidade r));
        ("carrinho",
         λ r, stored (Carrinho.id <$> carrinhos db) (ItemCarrinho.carrinho r));
        ("produto",
         λ r, stored (Produto.id <$> produtos db) (ItemCarrinho.produto r))]
       (ItemCarrinho.db_prep backend)
       (itens_carrinho db) k r)
    (λ rows, Py.Ok (with_itens_carrinho rows db)).

(** Deleting the products [ids]: every relation that points to [Produto]
    is [CASCADE] (or the join table of [Promocao.produtos]), and nothing
    points to the rows deleted with them. *)
Definition delete_produtos (ids : list Z) (db : DB) : DB := {|
  categorias := categorias db;
  produtos := filter (λ p, Produto.id p ∉ ids) (produtos db);
  clientes := clientes db;
  pedidos := pedidos db;
  itens_pedido := filter (λ r, ItemPedido.produto r ∉ ids) (itens_pedido db);
  avaliacoes := filter (λ r, AvaliacaoProduto.produto r ∉ ids) (avaliacoes db);
  estoques := filter (λ r, Estoque.produto r ∉ ids) (estoques db);
  promocao_produtos := filter (λ r, r.2 ∉ ids) (promocao_produtos db);
  carrinhos := carrinhos db;
  itens_carrinho := filter (λ r, ItemCarrinho.produto r ∉ ids) (itens_carrinho db);
|}.

(** [categoria.delete()]: the one relation that points to [Categoria],
    [Produto.categoria], is handled as its [on_delete] says, then the
    category row is removed. *)
Definition delete_Categoria (db : DB) (self : Categoria.t) : DB :=
  let target := Categoria.id self in
  let db' :=
    match Django.declared "Produto" "categoria" ≫= Django.rel_on_delete with
    | Some Django.SET_NULL =>
        with_produtos
          (Django.set_null_rows Produto.categoria
             (Produto.set_categoria None) target (produtos db)) db
    | Some Django.CASCADE =>
        delete_produtos
          (Produto.id <$>
             filter (λ p, Produto.categoria p = Some target) (produtos db)) db
    | None => db
    end in
  with_categorias (filter (λ c, Categoria.id c ≠ target) (categorias db')) db'.

End Store.

(** ** Sample data *)

Module Sample.

Definition categoria : Categoria.t := Categoria.Make 1 "Livros".

Definition cliente : Cliente.t :=
  Cliente.Make 1 1 "Rua A, 1" "Recife" "PE" "50000-000" None
    (Some (Py.Date 2000 6 16)).

Definition pedido : Pedido.t :=
  Pedido.Make 1 1 1718400000 "pendente" 25.00 "Rua A, 1" "50000-000".

Definition carrinho : Carrinho.t := Carrinho.Make 1 1 1718400000 1718400000.

(** A shop with one category, an active and an inactive product in it,
    one customer with an order and a cart, and no items yet. *)
Definition loja : DB := {|
  categorias := [categoria];
  produtos := [Produto.Make 7 "A" "" 10.00 (Some 1) true 3 1700000000 1700000000;
               Produto.Make 8 "B" "" 5.00 (Some 1) false 0 1700000000 1700000500];
  clientes := [cliente];
  pedidos := [pedido];
  itens_pedido := [];
  avaliacoes := [];
  estoques := [Estoque.Make 1 7 3 1700000000];
  promocao_produtos := [];
  carrinhos := [carrinho];
  itens_carrinho := [];
|}.

(** The same shop, the cart holding 2 of product 7 at 10.00 and 1 of
    product 8 at 5.00. *)
Definition loja_two_items : DB :=
  with_itens_carrinho
    [ItemCarrinho.Make 1 1 7 2 10.00 20.00;
     ItemCarrinho.Make 2 1 8 1 5.00 5.00] loja.

(** The same shop after the order item (order 1, product 7, quantity 2)
    was stored. *)
Definition loja_one_item : DB :=
  with_itens_pedido [ItemPedido.Make 1 1 7 2 10.00 20.00] loja.

End Sample.

(** ** Further parts of the schema *)

Module DateOrder.

(** [a < b] on dates: by year, then month, then day. *)
Definition before (a b : Py.date) : bool :=
  Py.tuple_lt [Py.year a; Py.month a; Py.day a]
              [Py.year b; Py.month b; Py.day b].

(** The month and day of [b], [n] years later. *)
Definition anniversary (b : Py.date) (n : Z) : Py.date :=
  Py.Date (Py.year b + n) (Py.month b) (Py.day b).

End DateOrder.

Module PedidoProps.

Section Choices.
(** [_], the text of a message in the active language. *)
Variable gettext : string → string.

Definition STATUS_PEDIDO : list (string * string) := [
  ("pendente", gettext "Pendente");
  ("processando", gettext "Processando");
  ("enviado", gettext "Enviado");
  ("entregue", gettext "Entregue");
  ("cancelado", gettext "Cancelado")
].

Definition status_field : Django.Field string := {|
  Django.name := "status";
  Django.ftype := Django.CharField 20;
  Django.validators := [];
  Django.choices := Some STATUS_PEDIDO;
  Django.blank := false;
  Django.null := false;
  Django.default := Some "pendente";
|}.
End Choices.

(** [self.<attr>] read as a manager of order items.  Two relations point
    to [Pedido]: [ItemPedido.pedido], whose accessor is a manager, and the
    one-to-one [Pagamento.pedido], whose accessor gives the payment itself
    (or raises a subclass of [AttributeError]) and has no [count]. *)
Definition manager (db : DB) (self : Pedido.t) (attr : string)
  : Py.result (list ItemPedido.t) :=
  match Django.reverse_accessor "Pedido" attr with
  | Some r =>
      if Django.multiple (Django.rel_kind r) then
        Py.Ok (filter (λ i, ItemPedido.pedido i = Pedido.id self)
                      (itens_pedido db))
      else Py.Err (Py.AttributeError (Django.rel_model r) "count")
  | None => Py.Err (Py.AttributeError "Pedido" attr)
  end.

(** [numero_itens]: [self.itempedido_set.count()] *)
Definition numero_itens (db : DB) (self : Pedido.t) : Py.result Z :=
  Py.bind (manager db self "itempedido_set") (λ qs, Py.Ok (Django.count qs)).

End PedidoProps.

Module Pagamento.

Definition PEDIDO_PAGO : string := "pago".
Definition PEDIDO_PENDENTE : string := "pendente".
Definition PEDIDO_REJEITADO : string := "rejeitado".

Section Choices.
Variable gettext : string → string.

Definition STATUS_PAGAMENTO_CHOICES : list (string * string) := [
  (PEDIDO_PAGO, gettext "Pago");
  (PEDIDO_PENDENTE, gettext "Pendente");
  (PEDIDO_REJEITADO, gettext "Rejeitado")
].

Definition status_field : Django.Field string := {|
  Django.name := "status";
  Django.ftype := Django.CharField 20;
  Django.validators := [];
  Django.choices := Some STATUS_PAGAMENTO_CHOICES;
  Django.blank := false;
  Django.null := false;
  Django.default := Some PEDIDO_PENDENTE;
|}.
End Choices.

End Pagamento.

(** ** Forward accessors *)

Module Related.

(** What reading a foreign key as an object gives: the row with that
    primary key, or [DoesNotExist]. *)
Inductive fetched (A : Type) : Type :=
| Found (a : A)
| DoesNotExist (model : string) (pk : Z).
Arguments Found {A} a.
Arguments DoesNotExist {A} model pk.

Definition get_Produto (db : DB) (pk : Z) : fetched Produto.t :=
  match find (λ p, Produto.id p =? pk) (produtos db) with
  | Some p => Found p
  | None => DoesNotExist "Produto" pk
  end.

End Related.

Module ItemPedidoProps.

(** [nome_produto]: [self.produto.nome] *)
Definition nome_produto (db : DB) (self : ItemPedido.t) : Related.fetched string :=
  match Related.get_Produto db (ItemPedido.produto self) with
  | Related.Found p => Related.Found (Produto.nome p)
  | Related.DoesNotExist model pk => Related.DoesNotExist model pk
  end.

End ItemPedidoProps.

Module ItemCarrinhoProps.

(** [nome_produto]: [self.produto.nome] *)
Definition nome_produto (db : DB) (self : ItemCarrinho.t) : Related.fetched string :=
  match Related.get_Produto db (ItemCarrinho.produto self) with
  | Related.Found p => Related.Found (Produto.nome p)
  | Related.DoesNotExist model pk => Related.DoesNotExist model pk
  end.

End ItemCarrinhoProps.

(** ** Further writes *)

Definition with_estoques (v : list Estoque.t) (db : DB) : DB :=
  Build_DB (categorias db) (produtos db) (clientes db) (pedidos db)
    (itens_pedido db) (avaliacoes db) v (promocao_produtos db) (carrinhos db)
    (itens_carrinho db).

Definition with_carrinhos (v : list Carrinho.t) (db : DB) : DB :=
  Build_DB (categorias db) (produtos db) (clientes db) (pedidos db)
    (itens_pedido db) (avaliacoes db) (estoques db) (promocao_produtos db) v
    (itens_carrinho db).

Module EstoqueRow.

Definition set_id (i : Z) (r : Estoque.t) : Estoque.t :=
  Estoque.Make i (Estoque.produto r) (Estoque.quantidade r)
    (Estoque.ultima_atualizacao r).

(** [auto_now] on a save at time [agora]. *)
Definition stamp (agora : Z) (r : Estoque.t) : Estoque.t :=
  Estoque.Make (Estoque.id r) (Estoque.produto r) (Estoque.quantidade r) agora.

Definition column (c : string) (r : Estoque.t) : option Z :=
  if String.eqb c "id" then Some (Estoque.id r)
  else if String.eqb c "produto" then Some (Estoque.produto r)
  else if String.eqb c "quantidade" then Some (Estoque.quantidade r)
  else None.

(** A [OneToOneField] column is unique. *)
Definition unique : list (list string) := [["produto"]].

(** The row as its columns hold it: [quantidade] is an integer column. *)
Definition db_prep (backend : Django.Backend) (r : Estoque.t)
  : Py.result Estoque.t :=
  Py.bind (Django.adapt_integer backend "Estoque" "quantidade"
             Django.IntegerField (Estoque.quantidade r)) (λ q,
  Py.Ok (Estoque.Make (Estoque.id r) (Estoque.produto r) q
           (Estoque.ultima_atualizacao r))).

End EstoqueRow.

Module CarrinhoRow.

Definition set_id (i : Z) (r : Carrinho.t) : Carrinho.t :=
  Carrinho.Make i (Carrinho.cliente r) (Carrinho.data_criacao r)
    (Carrinho.ultima_atualizacao r).

(** [auto_now_add] and [auto_now] on a first save at time [agora]. *)
Definition stamp (agora : Z) (r : Carrinho.t) : Carrinho.t :=
  Carrinho.Make (Carrinho.id r) (Carrinho.cliente r) agora agora.

Definition column (c : string) (r : Carrinho.t) : option Z :=
  if String.eqb c "id" then Some (Carrinho.id r)
  else if String.eqb c "cliente" then Some (Carrinho.cliente r)
  else None.

(** A [OneToOneField] column is unique. *)
Definition unique : list (list string) := [["cliente"]].

End CarrinhoRow.

Module Lifecycle.

Definition create_Estoque (backend : Django.Backend) (db : DB) (agora k : Z)
    (r : Estoque.t) : Py.result DB :=
  Py.bind
    (Django.insert "Estoque" Estoque.id EstoqueRow.set_id EstoqueRow.column
       EstoqueRow.unique
       [("produto",
         λ r, Store.stored (Produto.id <$> produtos db) (Estoque.produto r))]
       (EstoqueRow.db_prep backend)
       (estoques db) k (EstoqueRow.stamp agora r))
    (λ rows, Py.Ok (with_estoques rows db)).

Definition create_Carrinho (db : DB) (agora k : Z) (r : Carrinho.t)
  : Py.result DB :=
  Py.bind
    (Django.insert "Carrinho" Carrinho.id CarrinhoRow.set_id CarrinhoRow.column
       CarrinhoRow.unique
       [("cliente",
         λ r, Store.stored (Cliente.id <$> clientes db) (Carrinho.cliente r))]
       Py.Ok
       (carrinhos db) k (CarrinhoRow.stamp agora r))
    (λ rows, Py.Ok (with_carrinhos rows db)).

(** [produto.delete()]: every relation that points to [Produto] cascades. *)
Definition delete_Produto (db : DB) (self : Produto.t) : DB :=
  Store.delete_produtos [Produto.id self] db.

(** [carrinho.delete()]: [ItemCarrinho.carrinho], the one relation that
    points to [Carrinho], cascades. *)
Definition delete_Carrinho (db : DB) (self : Carrinho.t) : DB :=
  with_carrinhos
    (filter (λ c, Carrinho.id c ≠ Carrinho.id self) (carrinhos db))
    (with_itens_carrinho
       (filter (λ i, ItemCarrinho.carrinho i ≠ Carrinho.id self)
               (itens_carrinho db)) db).

End Lifecycle.

(** ** Integrity of the stored rows *)

Module Integrity.

(** Every foreign key names a stored row.  ([Cliente.user] and the
    promotion side of [promocao_produtos] point to tables that are not part
    of [DB].) *)
Record consistent (db : DB) : Prop := {
  produto_categoria :
    ∀ p c, p ∈ produtos db → Produto.categoria p = Some c →
           c ∈ Categoria.id <$> categorias db;
  pedido_cliente :
    ∀ r, r ∈ pedidos db → Pedido.cliente r ∈ Cliente.id <$> clientes db;
  item_pedido_pedido :
    ∀ r, r ∈ itens_pedido db → ItemPedido.pedido r ∈ Pedido.id <$> pedidos db;
  item_pedido_produto :
    ∀ r, r ∈ itens_pedido db → ItemPedido.produto r ∈ Produto.id <$> produtos db;
  avaliacao_produto :
    ∀ r, r ∈ avaliacoes db →
         AvaliacaoProduto.produto r ∈ Produto.id <$> produtos db;
  avaliacao_cliente :
    ∀ r, r ∈ avaliacoes db →
         AvaliacaoProduto.cliente r ∈ Cliente.id <$> clientes db;
  estoque_produto :
    ∀ r, r ∈ estoques db → Estoque.produto r ∈ Produto.id <$> produtos db;
  promocao_produto :
    ∀ r, r ∈ promocao_produtos db → r.2 ∈ Produto.id <$> produtos db;
  carrinho_cliente :
    ∀ r, r ∈ carrinhos db → Carrinho.cliente r ∈ Cliente.id <$> clientes db;
  item_carrinho_carrinho :
    ∀ r, r ∈ itens_carrinho db →
         ItemCarrinho.carrinho r ∈ Carrinho.id <$> carrinhos db;
  item_carrinho_produto :
    ∀ r, r ∈ itens_carrinho db →
         ItemCarrinho.produto r ∈ Produto.id <$> produtos db;
}.

(** No two rows share a key that is declared unique: the three
    [unique_together] pairs and the two one-to-one columns. *)
Record unique_keys (db : DB) : Prop := {
  item_pedido_pair :
    NoDup ((λ r, (ItemPedido.pedido r, ItemPedido.produto r)) <$> itens_pedido db);
  avaliacao_pair :
    NoDup ((λ r, (AvaliacaoProduto.produto r, AvaliacaoProduto.cliente r))
             <$> avaliacoes db);
  item_carrinho_pair :
    NoDup ((λ r, (ItemCarrinho.carrinho r, ItemCarrinho.produto r))
             <$> itens_carrinho db);
  estoque_one :
    NoDup (Estoque.produto <$> estoques db);
  carrinho_one :
    NoDup (Carrinho.cliente <$> carrinhos db);
}.

End Integrity.


(** ** Writes as steps *)

Module Writes.

(** One write on a database: a successful create, or a delete. *)
Inductive step (backend : Django.Backend) (db : DB) : DB → Prop :=
| create_Produto (agora k : Z) (p : Produto.t) (db' : DB) :
    Store.create_Produto backend db agora k p = Py.Ok db' → step backend db db'
| create_ItemPedido (k : Z) (r : ItemPedido.t) (db' : DB) :
    Store.create_ItemPedido backend db k r = Py.Ok db' → step backend db db'
| create_AvaliacaoProduto (agora k : Z) (r : AvaliacaoProduto.t) (db' : DB) :
    Store.create_AvaliacaoProduto backend db agora k r = Py.Ok db' →
    step backend db db'
| create_ItemCarrinho (k : Z) (r : ItemCarrinho.t) (db' : DB) :
    Store.create_ItemCarrinho backend db k r = Py.Ok db' → step backend db db'
| create_Estoque (agora k : Z) (r : Estoque.t) (db' : DB) :
    Lifecycle.create_Estoque backend db agora k r = Py.Ok db' →
    step backend db db'
| create_Carrinho (agora k : Z) (r : Carrinho.t) (db' : DB) :
    Lifecycle.create_Carrinho db agora k r = Py.Ok db' → step backend db db'
| delete_Categoria (c : Categoria.t) :
    step backend db (Store.delete_Categoria db c)
| delete_Produto (p : Produto.t) :
    step backend db (Lifecycle.delete_Produto db p)
| delete_Carrinho (c : Carrinho.t) :
    step backend db (Lifecycle.delete_Carrinho db c).

End Writes.

(** * Theorems *)

(** ** Cliente.idade *)

Lemma tuple_lt_month_day (a b : Py.date) :
  Py.tuple_lt [Py.month a; Py.day a] [Py.month b; Py.day b]
  = bool_decide (Cliente.earlier_in_year a b).
Proof.
  unfold Cliente.earlier_in_year; cbn.
  destruct (Z.eqb_spec (Py.month a) (Py.month b)) as [Hm | Hm].
  - destruct (Z.eqb_spec (Py.day a) (Py.day b)) as [Hd | Hd].
    + symmetry. apply bool_decide_eq_false. lia.
    + destruct (Z.ltb_spec (Py.day a) (Py.day b)); symmetry.
      * apply bool_decide_eq_true. lia.
      * apply bool_decide_eq_false. lia.
  - destruct (Z.ltb_spec (Py.month a) (Py.month b)); symmetry.
    + apply bool_decide_eq_true. lia.
    + apply bool_decide_eq_false. lia.
Qed.

(** C1: when the birth date is set, the age is the difference of the years,
    less one exactly when today's (month, day) comes before the birth
    (month, day); on 2024-06-15 a customer born 2000-06-16 is 23 and one born
    2000-06-15 is 24; without a birth date the age is [None]. *)
Theorem C1_idade (hoje : Py.date) (i u : Z) (e ci uf cep : string)
    (tel : option string) :
  (∀ b : Py.date,
      Cliente.idade hoje (Cliente.Make i u e ci uf cep tel (Some b))
      = Some (Py.year hoje - Py.year b
              - (if decide (Cliente.earlier_in_year hoje b) then 1 else 0)))
  ∧ Cliente.idade hoje (Cliente.Make i u e ci uf cep tel None) = None
  ∧ Cliente.idade (Py.Date 2024 6 15)
      (Cliente.Make i u e ci uf cep tel (Some (Py.Date 2000 6 16))) = Some 23
  ∧ Cliente.idade (Py.Date 2024 6 15)
      (Cliente.Make i u e ci uf cep tel (Some (Py.Date 2000 6 15))) = Some 24.
Proof.
  repeat split; try reflexivity.
  intros b. unfold Cliente.idade.
  cbn [Cliente.data_nascimento Py.truthy_date mbind option_bind].
  rewrite tuple_lt_month_day.
  destruct (decide (Cliente.earlier_in_year hoje b)) as [Hlt | Hge].
  - rewrite (bool_decide_eq_true_2 _ Hlt). reflexivity.
  - rewrite (bool_decide_eq_false_2 _ Hge). cbn [Py.int_of_bool]. f_equal; lia.
Qed.

(** ** Reverse accessors *)

Lemma related_objects_Carrinho :
  Django.get_accessor_name <$> Django.related_objects "Carrinho" = ["itens"].
Proof. reflexivity. Qed.

Lemma related_objects_Categoria :
  Django.get_accessor_name <$> Django.related_objects "Categoria" = ["produtos"].
Proof. reflexivity. Qed.

(** Without a [related_name] the default accessor exists: a product has its
    order items under [itempedido_set]. *)
Lemma default_accessor_Produto :
  Django.rel_model <$> Django.reverse_accessor "Produto" "itempedido_set"
  = Some "ItemPedido".
Proof. reflexivity. Qed.

Lemma manager_itens (db : DB) (c : Carrinho.t) :
  CarrinhoProps.manager db c "itens"
  = Py.Ok (filter (λ i, ItemCarrinho.carrinho i = Carrinho.id c)
                  (itens_carrinho db)).
Proof. reflexivity. Qed.


(** The loop over the items reached through [itens] gives 25.00 on the
    sample cart. *)
Lemma sum_subtotals_itens :
  ∃ qs, CarrinhoProps.manager Sample.loja_two_items Sample.carrinho "itens" = Py.Ok qs
        ∧ (CarrinhoProps.sum_subtotals qs == 25.00)%Q.
Proof. eexists. split; [reflexivity | reflexivity]. Qed.

(** Whatever the stored rows, the two cart properties raise. *)
Lemma numero_itens_raises (db : DB) (c : Carrinho.t) :
  CarrinhoProps.numero_itens db c
  = Py.Err (Py.AttributeError "Carrinho" "itemcarrinho_set").
Proof. reflexivity. Qed.

Lemma total_carrinho_raises (db : DB) (c : Carrinho.t) :
  CarrinhoProps.total_carrinho db c
  = Py.Err (Py.AttributeError "Carrinho" "itemcarrinho_set").
Proof. reflexivity. Qed.

(** C2: on the cart with items (2 at 10.00) and (1 at 5.00)
    [total_carrinho] does not return 25.00: reading [itemcarrinho_set]
    raises [AttributeError], the items being reachable as [itens] only. *)
Theorem C2_total_carrinho_two_items :
  CarrinhoProps.total_carrinho Sample.loja_two_items Sample.carrinho
  = Py.Err (Py.AttributeError "Carrinho" "itemcarrinho_set").
Proof. apply total_carrinho_raises. Qed.

(** C9: on the cart of the sample shop, which has no items, neither
    [numero_itens] nor [total_carrinho] returns 0: both raise
    [AttributeError] on [itemcarrinho_set]. *)
Theorem C9_empty_cart :
  CarrinhoProps.numero_itens Sample.loja Sample.carrinho
  = Py.Err (Py.AttributeError "Carrinho" "itemcarrinho_set")
  ∧ CarrinhoProps.total_carrinho Sample.loja Sample.carrinho
    = Py.Err (Py.AttributeError "Carrinho" "itemcarrinho_set").
Proof. split; [apply numero_itens_raises | apply total_carrinho_raises]. Qed.

(** Over the products reached through [produtos] the active ones are no
    more than all of them. *)
Lemma count_filter_le {A} (P : A → Prop) `{∀ x, Decision (P x)} (qs : list A) :
  Django.count (filter P qs) ≤ Django.count qs.
Proof.
  unfold Django.count. apply Nat2Z.inj_le, length_filter.
Qed.

(** C10: on the category of the sample shop, which has one active and one
    inactive product, neither
    count is returned, so the two cannot be compared: [total_produtos] and
    [produtos_ativos] raise [AttributeError] on [produto_set], the products
    being reachable as [produtos] only. *)
Theorem C10_counts_raise :
  CategoriaProps.total_produtos Sample.loja Sample.categoria
  = Py.Err (Py.AttributeError "Categoria" "produto_set")
  ∧ CategoriaProps.produtos_ativos Sample.loja Sample.categoria
    = Py.Err (Py.AttributeError "Categoria" "produto_set").
Proof. split; reflexivity. Qed.

(** ** AvaliacaoProduto.nota_extenso *)

(** C5: ratings 1 to 5 are mapped to the five labels -- the messages
    Péssimo (terrible), Ruim (bad), Regular (average), Bom (good) and
    Excelente (excellent) -- and every other integer, such as 0 or 99, to
    the default message Não Avaliado (not rated). *)
Theorem C5_nota_extenso (gettext : string → string) (i p c : Z)
    (com : option string) (d : Z) :
  let label n := AvaliacaoProduto.nota_extenso gettext
                   (AvaliacaoProduto.Make i p c n com d) in
  label 1 = gettext "Péssimo"
  ∧ label 2 = gettext "Ruim"
  ∧ label 3 = gettext "Regular"
  ∧ label 4 = gettext "Bom"
  ∧ label 5 = gettext "Excelente"
  ∧ label 0 = gettext "Não Avaliado"
  ∧ label 99 = gettext "Não Avaliado"
  ∧ ∀ n : Z, ¬ (1 ≤ n ≤ 5) → label n = gettext "Não Avaliado".
Proof.
  cbv zeta. repeat split; try reflexivity.
  intros n Hn. unfold AvaliacaoProduto.nota_extenso, AvaliacaoProduto.notas.
  cbn [AvaliacaoProduto.nota].
  rewrite !lookup_insert_ne by lia. rewrite lookup_singleton_ne by lia.
  reflexivity.
Qed.

Lemma C5_nota_extenso_witness :
  AvaliacaoProduto.nota_extenso (λ s, s)
    (AvaliacaoProduto.Make 1 7 1 (-3) None 1718400000)
  = "Não Avaliado".
Proof.
  apply (C5_nota_extenso (λ s, s) 1 7 1 None 1718400000). lia.
Defined.

(** ** Estoque *)

(** C8: [disponivel] is true exactly when the quantity is above 0 and
    [precisa_reposicao] exactly when it is below 5, and each leaves the row
    as it found it. *)
Theorem C8_estoque_flags (e : Estoque.t) :
  ((Estoque.disponivel e).1 = true ↔ Estoque.quantidade e > 0)
  ∧ ((Estoque.precisa_reposicao e).1 = true ↔ Estoque.quantidade e < 5)
  ∧ (Estoque.disponivel e).2 = e
  ∧ (Estoque.precisa_reposicao e).2 = e.
Proof.
  unfold Estoque.disponivel, Estoque.precisa_reposicao, Estoque.bind,
    Estoque.attr, Estoque.ret; cbn [fst snd].
  rewrite !bool_decide_eq_true. tauto.
Qed.

(** ** Deleting a category *)

Lemma on_delete_categoria :
  Django.declared "Produto" "categoria" ≫= Django.rel_on_delete
  = Some Django.SET_NULL.
Proof. reflexivity. Qed.

Lemma delete_Categoria_eq (db : DB) (c : Categoria.t) :
  Store.delete_Categoria db c
  = with_categorias
      (filter (λ c', Categoria.id c' ≠ Categoria.id c) (categorias db))
      (with_produtos
         (Django.set_null_rows Produto.categoria (Produto.set_categoria None)
            (Categoria.id c) (produtos db)) db).
Proof. reflexivity. Qed.

(** C6: deleting a category deletes no product: the table keeps its rows,
    in place and under their keys; a product that referred to the category
    has an empty [categoria] afterwards, any other product keeps its own, and
    every other column of every product is as before.  The category row is
    gone and the other tables are untouched. *)
Theorem C6_delete_categoria (db : DB) (c : Categoria.t) :
  let db' := Store.delete_Categoria db c in
  Produto.id <$> produtos db' = Produto.id <$> produtos db
  ∧ (∀ (i : nat) (p : Produto.t), produtos db !! i = Some p →
       ∃ p', produtos db' !! i = Some p'
             ∧ Produto.same_but_categoria p p'
             ∧ Produto.categoria p'
               = if decide (Produto.categoria p = Some (Categoria.id c))
                 then None else Produto.categoria p)
  ∧ (∀ c', c' ∈ categorias db'
           ↔ c' ∈ categorias db ∧ Categoria.id c' ≠ Categoria.id c)
  ∧ clientes db' = clientes db
  ∧ pedidos db' = pedidos db
  ∧ itens_pedido db' = itens_pedido db
  ∧ avaliacoes db' = avaliacoes db
  ∧ estoques db' = estoques db
  ∧ promocao_produtos db' = promocao_produtos db
  ∧ carrinhos db' = carrinhos db
  ∧ itens_carrinho db' = itens_carrinho db.
Proof.
  cbv zeta. rewrite delete_Categoria_eq.
  cbn [produtos categorias clientes pedidos itens_pedido avaliacoes estoques
       promocao_produtos carrinhos itens_carrinho with_categorias with_produtos].
  repeat apply conj; try reflexivity.
  - unfold Django.set_null_rows. rewrite <- list_fmap_compose.
    apply list_fmap_ext. intros i p _. cbn.
    now destruct (decide _).
  - intros i p Hp. unfold Django.set_null_rows.
    rewrite list_lookup_fmap, Hp. cbn [fmap option_fmap option_map].
    eexists. split; [reflexivity |].
    destruct (decide (Produto.categoria p = Some (Categoria.id c))).
    + split; [| reflexivity]. now repeat split.
    + split; [| reflexivity]. now repeat split.
  - intros c'. rewrite list_elem_of_filter. tauto.
Qed.

Lemma C6_delete_categoria_witness :
  ∃ p', produtos (Store.delete_Categoria Sample.loja Sample.categoria) !! 0%nat
        = Some p'
        ∧ Produto.same_but_categoria
            (Produto.Make 7 "A" "" 10.00 (Some 1) true 3 1700000000 1700000000) p'
        ∧ Produto.categoria p' = None.
Proof.
  exact (proj1 (proj2 (C6_delete_categoria Sample.loja Sample.categoria))
           0%nat (Produto.Make 7 "A" "" 10.00 (Some 1) true 3 1700000000 1700000000) eq_refl).
Defined.

(** ** Field validation *)

Lemma Qlt_bool_true (a b : Q) : Django.Qlt_bool a b = true ↔ (a < b)%Q.
Proof.
  unfold Django.Qlt_bool. rewrite negb_true_iff.
  destruct (Qle_bool b a) eqn:E.
  - apply Qle_bool_iff in E. split; [discriminate |].
    intros Hlt. exfalso. exact (Qlt_not_le _ _ Hlt E).
  - split; [| reflexivity]. intros _. apply Qnot_le_lt.
    intros Hle. apply Qle_bool_iff in Hle. congruence.
Qed.

Lemma Qlt_bool_false (a b : Q) : Django.Qlt_bool a b = false ↔ (b <= a)%Q.
Proof.
  unfold Django.Qlt_bool. rewrite negb_false_iff. apply Qle_bool_iff.
Qed.

Lemma inject_Z_lt (x y : Z) : (inject_Z x < inject_Z y)%Q ↔ x < y.
Proof. unfold Qlt; cbn. lia. Qed.

Lemma inject_Z_le_bool (x y : Z) : Qle_bool (inject_Z x) (inject_Z y) = true ↔ x ≤ y.
Proof. rewrite Qle_bool_iff. unfold Qle; cbn. lia. Qed.

(** Cleaning a number held by a required field without choices runs the
    validators of the field and nothing else. *)
Lemma clean_number {V} `{Django.PyValue V} (backend : Django.Backend)
    (f : Django.Field V) (v : V) (x : Q) :
  Django.blank f = false → Django.choices f = None →
  Django.is_empty v = false → Django.as_number v = Some x →
  Django.clean backend f (Some v)
  = omap (λ val, Django.run_validator val x) (Django.field_validators backend f).
Proof.
  intros Hb Hc He Hn.
  unfold Django.clean, Django.validate, Django.run_validators.
  rewrite Hb, Hc, He, Hn. reflexivity.
Qed.

Lemma clean_decimal (backend : Django.Backend) (f : Django.Field Q) (x : Q) :
  Django.blank f = false → Django.choices f = None →
  Django.clean backend f (Some x)
  = omap (λ val, Django.run_validator val x) (Django.field_validators backend f).
Proof. intros Hb Hc. now apply clean_number. Qed.

Lemma clean_int (backend : Django.Backend) (f : Django.Field Z) (z : Z) :
  Django.blank f = false → Django.choices f = None →
  Django.clean backend f (Some z)
  = omap (λ val, Django.run_validator val (inject_Z z))
      (Django.field_validators backend f).
Proof. intros Hb Hc. now apply clean_number. Qed.

(** Whatever the database adds, the declared validators are run. *)
Lemma declared_validator {V} (backend : Django.Backend) (f : Django.Field V)
    (v : Django.Validator) :
  v ∈ Django.validators f → v ∈ Django.field_validators backend f.
Proof.
  intros Hin. unfold Django.field_validators.
  destruct (Django.ftype f); try exact Hin;
    destruct (Django.integer_field_range backend _) as [[lo |] [hi |]];
    repeat match goal with
           | |- context [if ?b then _ else _] => destruct b
           end;
    rewrite ?elem_of_app; tauto.
Qed.


(** The rating keeps its declared bounds on every supported database: they
    are stricter than those of the column type. *)
Lemma validators_nota (backend : Django.Backend) :
  Django.supported backend →
  Django.field_validators backend AvaliacaoProduto.nota_field
  = [Django.MinValueValidator 1; Django.MaxValueValidator 5].
Proof.
  intros Hs. unfold Django.field_validators.
  cbn [Django.ftype Django.validators AvaliacaoProduto.nota_field].
  pose proof (Django.positive_min backend Hs) as Hmin.
  pose proof (Django.positive_max backend Hs) as Hmax.
  destruct (Django.integer_field_range backend Django.PositiveIntegerField)
    as [[lo |] [hi |]]; cbn [fst snd] in Hmin, Hmax.
  - rewrite (Hmin lo eq_refl). cbn [existsb Django.min_at_least orb].
    change (Qle_bool (inject_Z 0) 1) with true. cbn [orb existsb Django.max_at_most].
    assert (Qle_bool 5 (inject_Z hi) = true) as ->; [| reflexivity].
    apply (inject_Z_le_bool 5 hi). specialize (Hmax hi eq_refl). lia.
  - rewrite (Hmin lo eq_refl). reflexivity.
  - cbn [existsb Django.max_at_most orb].
    assert (Qle_bool 5 (inject_Z hi) = true) as ->; [| reflexivity].
    apply (inject_Z_le_bool 5 hi). specialize (Hmax hi eq_refl). lia.
  - reflexivity.
Qed.

(** A value below the limit of a minimum validator of the field is reported
    as [min_value], one above the limit of a maximum validator as
    [max_value]. *)
Lemma min_value_reported (vs : list Django.Validator) (limit x : Q) :
  Django.MinValueValidator limit ∈ vs → (x < limit)%Q →
  "min_value" ∈ omap (λ val, Django.run_validator val x) vs.
Proof.
  intros Hin Hlt. apply list_elem_of_omap.
  exists (Django.MinValueValidator limit). split; [assumption |].
  cbn. apply Qlt_bool_true in Hlt. now rewrite Hlt.
Qed.

Lemma max_value_reported (vs : list Django.Validator) (limit x : Q) :
  Django.MaxValueValidator limit ∈ vs → (limit < x)%Q →
  "max_value" ∈ omap (λ val, Django.run_validator val x) vs.
Proof.
  intros Hin Hlt. apply list_elem_of_omap.
  exists (Django.MaxValueValidator limit). split; [assumption |].
  cbn. apply Qlt_bool_true in Hlt. now rewrite Hlt.
Qed.

Lemma field_errors_code {V} `{Django.PyValue V} (backend : Django.Backend)
    (f : Django.Field V) (value : option V) (code : string) :
  code ∈ Django.clean backend f value →
  (Django.name f, code) ∈ Django.field_errors backend f value.
Proof.
  intros Hin. unfold Django.field_errors.
  apply list_elem_of_fmap. exists code. split; [reflexivity | assumption].
Qed.

(** A declared minimum is reported below its limit, a declared maximum
    above it, on every database. *)
Lemma declared_min_reported (backend : Django.Backend) (f : Django.Field Z)
    (limit : Q) (z : Z) :
  Django.blank f = false → Django.choices f = None →
  Django.MinValueValidator limit ∈ Django.validators f →
  (inject_Z z < limit)%Q →
  (Django.name f, "min_value") ∈ Django.field_errors backend f (Some z).
Proof.
  intros Hb Hc Hin Hlt. apply field_errors_code. rewrite clean_int by assumption.
  eapply min_value_reported; [| exact Hlt]. now apply declared_validator.
Qed.

Lemma declared_max_reported (backend : Django.Backend) (f : Django.Field Z)
    (limit : Q) (z : Z) :
  Django.blank f = false → Django.choices f = None →
  Django.MaxValueValidator limit ∈ Django.validators f →
  (limit < inject_Z z)%Q →
  (Django.name f, "max_value") ∈ Django.field_errors backend f (Some z).
Proof.
  intros Hb Hc Hin Hlt. apply field_errors_code. rewrite clean_int by assumption.
  eapply max_value_reported; [| exact Hlt]. now apply declared_validator.
Qed.

(** An integer that passes the validation of a field with a declared
    minimum of 0 is at least 0. *)
Lemma clean_min_zero (backend : Django.Backend) (f : Django.Field Z) (z : Z) :
  Django.blank f = false → Django.choices f = None →
  Django.MinValueValidator 0 ∈ Django.validators f →
  Django.clean backend f (Some z) = [] → 0 ≤ z.
Proof.
  intros Hb Hc Hin Hclean.
  destruct (Z.lt_ge_cases z 0) as [Hneg | Hok]; [| exact Hok].
  exfalso.
  assert ("min_value" ∈ Django.clean backend f (Some z)) as Hrep.
  { rewrite clean_int by assumption.
    eapply (min_value_reported _ 0); [now apply declared_validator |].
    now apply (inject_Z_lt z 0). }
  rewrite Hclean in Hrep. now apply elem_of_nil in Hrep.
Qed.


Lemma supported_sqlite : Django.supported Django.sqlite.
Proof. constructor; cbn; intros; simplify_eq; lia. Qed.

Lemma supported_sqlite_no_range : Django.supported Django.sqlite_no_range.
Proof. constructor; cbn; intros; simplify_eq; lia. Qed.

(** ** Inserts *)

Lemma find_all_false {A} (f : A → bool) (l : list A) :
  (∀ x, x ∈ l → f x = false) → find f l = None.
Proof.
  induction l as [| x l IH]; intros Hall; [reflexivity |].
  cbn. rewrite (Hall x (list_elem_of_here _ _)).
  apply IH. intros y Hy. apply Hall. now apply elem_of_cons; right.
Qed.

Lemma existsb_all_false {A} (f : A → bool) (l : list A) :
  existsb f l = false ↔ ∀ x, x ∈ l → f x = false.
Proof.
  split.
  - intros He x Hx. destruct (f x) eqn:E; [| reflexivity].
    assert (existsb f l = true) as Habs; [| congruence].
    apply existsb_exists. exists x. split; [now apply list_elem_of_In | exact E].
  - intros Hall. destruct (existsb f l) eqn:E; [| reflexivity].
    apply existsb_exists in E as (x & Hx & Hfx).
    apply list_elem_of_In in Hx. rewrite (Hall x Hx) in Hfx. discriminate.
Qed.

Lemma not_true_false (b : bool) : b = false ↔ ¬ b = true.
Proof. destruct b; split; congruence. Qed.


Lemma is_ok_bind {A B} (m : Py.result A) (k : A → Py.result B) :
  (∀ a, Py.is_ok (k a) = true) →
  Py.is_ok (Py.bind m k) = Py.is_ok m.
Proof. intros Hk. destruct m; [apply Hk | reflexivity]. Qed.

Section TableFacts.
Context {R : Type}.
Variable table : string.
Variable pk : R → Z.
Variable set_pk : Z → R → R.
Variable column : string → R → option Z.
Variable unique_together : list (list string).
Variable checks : list (string * (R → bool)).
Variable db_prep : R → Py.result R.

(** The constraints let a row in exactly when its key is free, it passes
    every check and shares no unique key with a stored row; the row is then
    appended under its key. *)
Lemma constrained_Ok (rows rows' : list R) (k : Z) (r : R) :
  Django.constrained table pk set_pk column unique_together checks rows k r
  = Py.Ok rows'
  ↔ rows' = rows ++ [set_pk k r]
    ∧ (k ∉ pk <$> rows)
    ∧ Forall (λ c, c.2 r = true) checks
    ∧ Forall (λ cols, ∀ x, x ∈ rows →
                           Django.same_key column cols r x = false)
        unique_together.
Proof.
  unfold Django.constrained. split.
  - destruct (bool_decide _) eqn:Hk; [discriminate |].
    apply bool_decide_eq_false in Hk.
    destruct (find _ checks) eqn:Hc; [discriminate |].
    destruct (find _ unique_together) eqn:Hu; [discriminate |].
    intros [= <-]. split; [reflexivity | split; [exact Hk | split]].
    + apply Forall_forall. intros c Hin. apply list_elem_of_In in Hin.
      apply (find_none _ _ Hc) in Hin. now apply negb_false_iff in Hin.
    + apply Forall_forall. intros cols Hin x Hx. apply list_elem_of_In in Hin.
      apply (find_none _ _ Hu) in Hin. cbn beta in Hin.
      now apply (proj1 (existsb_all_false _ _) Hin).
  - intros (-> & Hk & Hc & Hu).
    rewrite Forall_forall in Hc. rewrite Forall_forall in Hu.
    rewrite (bool_decide_eq_false_2 _ Hk).
    rewrite find_all_false.
    + rewrite find_all_false; [reflexivity |].
      intros cols Hcols. apply existsb_all_false. now apply Hu.
    + intros c Hin. now rewrite (Hc c Hin).
Qed.

Lemma insert_Ok (rows rows' : list R) (k : Z) (r : R) :
  Django.insert table pk set_pk column unique_together checks db_prep rows k r
  = Py.Ok rows'
  ↔ ∃ r', db_prep r = Py.Ok r'
          ∧ rows' = rows ++ [set_pk k r']
          ∧ (k ∉ pk <$> rows)
          ∧ Forall (λ c, c.2 r' = true) checks
          ∧ Forall (λ cols, ∀ x, x ∈ rows →
                                 Django.same_key column cols r' x = false)
              unique_together.
Proof.
  unfold Django.insert. destruct (db_prep r) as [r' | e]; cbn [Py.bind].
  - rewrite constrained_Ok. split.
    + intros H. exists r'. tauto.
    + intros (r'' & [= <-] & H). exact H.
  - split; [discriminate |]. intros (r' & Habs & _). discriminate.
Qed.


End TableFacts.


Lemma stored_true (ids : list Z) (ref : Z) : Store.stored ids ref = true ↔ ref ∈ ids.
Proof. unfold Store.stored. apply bool_decide_eq_true. Qed.

(** The unique key of each table, read off the rows. *)
Lemma same_key_ItemPedido (a b : ItemPedido.t) :
  Django.same_key ItemPedido.column ["pedido"; "produto"] a b = true
  ↔ ItemPedido.pedido b = ItemPedido.pedido a
    ∧ ItemPedido.produto b = ItemPedido.produto a.
Proof.
  cbn. rewrite andb_true_r, andb_true_iff, !Z.eqb_eq. intuition congruence.
Qed.

Lemma same_key_AvaliacaoProduto (a b : AvaliacaoProduto.t) :
  Django.same_key AvaliacaoProduto.column ["produto"; "cliente"] a b = true
  ↔ AvaliacaoProduto.produto b = AvaliacaoProduto.produto a
    ∧ AvaliacaoProduto.cliente b = AvaliacaoProduto.cliente a.
Proof.
  cbn. rewrite andb_true_r, andb_true_iff, !Z.eqb_eq. intuition congruence.
Qed.

Lemma same_key_ItemCarrinho (a b : ItemCarrinho.t) :
  Django.same_key ItemCarrinho.column ["carrinho"; "produto"] a b = true
  ↔ ItemCarrinho.carrinho b = ItemCarrinho.carrinho a
    ∧ ItemCarrinho.produto b = ItemCarrinho.produto a.
Proof.
  cbn. rewrite andb_true_r, andb_true_iff, !Z.eqb_eq. intuition congruence.
Qed.

Lemma same_key_false_ItemPedido (a b : ItemPedido.t) :
  Django.same_key ItemPedido.column ["pedido"; "produto"] a b = false
  ↔ ¬ (ItemPedido.pedido b = ItemPedido.pedido a
       ∧ ItemPedido.produto b = ItemPedido.produto a).
Proof. rewrite <- same_key_ItemPedido. apply not_true_false. Qed.

Lemma same_key_false_AvaliacaoProduto (a b : AvaliacaoProduto.t) :
  Django.same_key AvaliacaoProduto.column ["produto"; "cliente"] a b = false
  ↔ ¬ (AvaliacaoProduto.produto b = AvaliacaoProduto.produto a
       ∧ AvaliacaoProduto.cliente b = AvaliacaoProduto.cliente a).
Proof. rewrite <- same_key_AvaliacaoProduto. apply not_true_false. Qed.

Lemma same_key_false_ItemCarrinho (a b : ItemCarrinho.t) :
  Django.same_key ItemCarrinho.column ["carrinho"; "produto"] a b = false
  ↔ ¬ (ItemCarrinho.carrinho b = ItemCarrinho.carrinho a
       ∧ ItemCarrinho.produto b = ItemCarrinho.produto a).
Proof. rewrite <- same_key_ItemCarrinho. apply not_true_false. Qed.


Lemma same_key_false_Estoque (a b : Estoque.t) :
  Django.same_key EstoqueRow.column ["produto"] a b = false
  ↔ Estoque.produto b ≠ Estoque.produto a.
Proof. cbn. rewrite andb_true_r, Z.eqb_neq. split; congruence. Qed.


Lemma same_key_false_Carrinho (a b : Carrinho.t) :
  Django.same_key CarrinhoRow.column ["cliente"] a b = false
  ↔ Carrinho.cliente b ≠ Carrinho.cliente a.
Proof. cbn. rewrite andb_true_r, Z.eqb_neq. split; congruence. Qed.

(** ** Rows as their columns hold them *)

Lemma adapt_decimal_Ok (backend : Django.Backend) (column : string)
    (md dp : Z) (x y : Q) :
  Django.adapt_decimal backend column md dp x = Py.Ok y
  ↔ Django.adapt_decimalfield_value backend md dp x = Some y.
Proof.
  unfold Django.adapt_decimal.
  destruct (Django.adapt_decimalfield_value backend md dp x); split; congruence.
Qed.

Lemma adapt_integer_Ok (backend : Django.Backend) (table column : string)
    (t : Django.FieldType) (z z' : Z) :
  Django.adapt_integer backend table column t z = Py.Ok z'
  ↔ z' = z
    ∧ (Django.column_range backend t).1 ≤ z ≤ (Django.column_range backend t).2.
Proof.
  unfold Django.adapt_integer.
  destruct (_ && _) eqn:E.
  - apply andb_true_iff in E as [E1 E2]. apply Z.leb_le in E1, E2.
    split; [intros [= <-]; lia | intros [-> _]; reflexivity].
  - split; [discriminate |]. intros [_ [H1 H2]].
    apply Z.leb_le in H1, H2. rewrite H1, H2 in E. discriminate.
Qed.

Lemma bind_Ok {A B} (m : Py.result A) (k : A → Py.result B) (b : B) :
  Py.bind m k = Py.Ok b ↔ ∃ a, m = Py.Ok a ∧ k a = Py.Ok b.
Proof.
  destruct m as [a | e]; cbn; split.
  - eauto.
  - intros (a' & [= <-] & H). exact H.
  - discriminate.
  - intros (a' & Habs & _). discriminate.
Qed.

Lemma ItemPedido_db_prep_Ok (backend : Django.Backend) (r r' : ItemPedido.t) :
  ItemPedido.db_prep backend r = Py.Ok r'
  ↔ ∃ pu st,
      Django.adapt_decimalfield_value backend 10 2 (ItemPedido.preco_unitario r) = Some pu
      ∧ Django.adapt_decimalfield_value backend 10 2 (ItemPedido.subtotal r) = Some st
      ∧ (Django.column_range backend Django.PositiveIntegerField).1
        ≤ ItemPedido.quantidade r
        ≤ (Django.column_range backend Django.PositiveIntegerField).2
      ∧ r' = ItemPedido.Make (ItemPedido.id r) (ItemPedido.pedido r)
               (ItemPedido.produto r) (ItemPedido.quantidade r) pu st.
Proof.
  unfold ItemPedido.db_prep. rewrite bind_Ok. split.
  - intros (pu & Hpu & H). apply bind_Ok in H as (st & Hst & H).
    apply bind_Ok in H as (q & Hq & H).
    apply adapt_decimal_Ok in Hpu, Hst. apply adapt_integer_Ok in Hq as [-> Hq].
    injection H as <-. eauto 10.
  - intros (pu & st & Hpu & Hst & Hq & ->).
    exists pu. split; [now apply adapt_decimal_Ok |].
    apply bind_Ok. exists st. split; [now apply adapt_decimal_Ok |].
    apply bind_Ok. exists (ItemPedido.quantidade r).
    split; [now apply adapt_integer_Ok | reflexivity].
Qed.

Lemma ItemCarrinho_db_prep_Ok (backend : Django.Backend) (r r' : ItemCarrinho.t) :
  ItemCarrinho.db_prep backend r = Py.Ok r'
  ↔ ∃ pu st,
      Django.adapt_decimalfield_value backend 10 2 (ItemCarrinho.preco_unitario r) = Some pu
      ∧ Django.adapt_decimalfield_value backend 10 2 (ItemCarrinho.subtotal r) = Some st
      ∧ (Django.column_range backend Django.PositiveIntegerField).1
        ≤ ItemCarrinho.quantidade r
        ≤ (Django.column_range backend Django.PositiveIntegerField).2
      ∧ r' = ItemCarrinho.Make (ItemCarrinho.id r) (ItemCarrinho.carrinho r)
               (ItemCarrinho.produto r) (ItemCarrinho.quantidade r) pu st.
Proof.
  unfold ItemCarrinho.db_prep. rewrite bind_Ok. split.
  - intros (pu & Hpu & H). apply bind_Ok in H as (st & Hst & H).
    apply bind_Ok in H as (q & Hq & H).
    apply adapt_decimal_Ok in Hpu, Hst. apply adapt_integer_Ok in Hq as [-> Hq].
    injection H as <-. eauto 10.
  - intros (pu & st & Hpu & Hst & Hq & ->).
    exists pu. split; [now apply adapt_decimal_Ok |].
    apply bind_Ok. exists st. split; [now apply adapt_decimal_Ok |].
    apply bind_Ok. exists (ItemCarrinho.quantidade r).
    split; [now apply adapt_integer_Ok | reflexivity].
Qed.

Lemma AvaliacaoProduto_db_prep_Ok (backend : Django.Backend)
    (r r' : AvaliacaoProduto.t) :
  AvaliacaoProduto.db_prep backend r = Py.Ok r'
  ↔ (Django.column_range backend Django.PositiveIntegerField).1
    ≤ AvaliacaoProduto.nota r
    ≤ (Django.column_range backend Django.PositiveIntegerField).2
    ∧ r' = r.
Proof.
  unfold AvaliacaoProduto.db_prep. rewrite bind_Ok. split.
  - intros (n & Hn & H). apply adapt_integer_Ok in Hn as [-> Hn].
    injection H as <-. split; [exact Hn | now destruct r].
  - intros [Hn ->]. exists (AvaliacaoProduto.nota r).
    split; [now apply adapt_integer_Ok | now destruct r].
Qed.

Lemma Estoque_db_prep_Ok (backend : Django.Backend) (r r' : Estoque.t) :
  EstoqueRow.db_prep backend r = Py.Ok r'
  ↔ (Django.column_range backend Django.IntegerField).1
    ≤ Estoque.quantidade r
    ≤ (Django.column_range backend Django.IntegerField).2
    ∧ r' = r.
Proof.
  unfold EstoqueRow.db_prep. rewrite bind_Ok. split.
  - intros (n & Hn & H). apply adapt_integer_Ok in Hn as [-> Hn].
    injection H as <-. split; [exact Hn | now destruct r].
  - intros [Hn ->]. exists (Estoque.quantidade r).
    split; [now apply adapt_integer_Ok | now destruct r].
Qed.

Lemma Produto_db_prep_keeps (backend : Django.Backend) (p p' : Produto.t) :
  Produto.db_prep backend p = Py.Ok p' →
  Produto.id p' = Produto.id p ∧ Produto.categoria p' = Produto.categoria p.
Proof.
  unfold Produto.db_prep. intros H.
  apply bind_Ok in H as (x & _ & H). apply bind_Ok in H as (y & _ & H).
  apply bind_Ok in H as (z & _ & H). injection H as <-. split; reflexivity.
Qed.

(** ** What a successful create leaves behind *)

Ltac insert_inv H :=
  let rows := fresh "rows" in
  let Hi := fresh "Hi" in
  match type of H with
  | Py.bind ?m _ = _ =>
      destruct m as [rows |] eqn:Hi; [| discriminate H];
      injection H as <-;
      apply insert_Ok in Hi;
      unfold ItemPedido.unique_together, AvaliacaoProduto.unique_together,
        ItemCarrinho.unique_together, EstoqueRow.unique, CarrinhoRow.unique in Hi;
      setoid_rewrite Forall_cons in Hi;
      repeat setoid_rewrite Forall_cons in Hi;
      repeat setoid_rewrite Forall_nil in Hi;
      cbn [snd] in Hi
  end.

Lemma create_Produto_inv (backend : Django.Backend) (db db' : DB)
    (agora k : Z) (p : Produto.t) :
  Store.create_Produto backend db agora k p = Py.Ok db' →
  ∃ p', Produto.db_prep backend (Produto.stamp agora p) = Py.Ok p'
        ∧ db' = with_produtos (produtos db ++ [Produto.set_id k p']) db
        ∧ (k ∉ Produto.id <$> produtos db)
        ∧ ∀ c, Produto.categoria p = Some c → c ∈ Categoria.id <$> categorias db.
Proof.
  unfold Store.create_Produto. intros H. insert_inv H.
  destruct Hi as (p' & Hp & -> & Hk & (Hc & _) & _).
  exists p'. repeat split; try assumption.
  intros c Hcat. apply Produto_db_prep_keeps in Hp as [_ Hp].
  cbn [Produto.stamp Produto.categoria] in Hp. rewrite Hp, Hcat in Hc.
  now apply stored_true.
Qed.

Lemma create_ItemPedido_inv (backend : Django.Backend) (db db' : DB) (k : Z)
    (r : ItemPedido.t) :
  Store.create_ItemPedido backend db k r = Py.Ok db' →
  ∃ r', ItemPedido.db_prep backend r = Py.Ok r'
        ∧ db' = with_itens_pedido (itens_pedido db ++ [ItemPedido.set_id k r']) db
        ∧ (k ∉ ItemPedido.id <$> itens_pedido db)
        ∧ 0 ≤ ItemPedido.quantidade r
        ∧ ItemPedido.pedido r ∈ Pedido.id <$> pedidos db
        ∧ ItemPedido.produto r ∈ Produto.id <$> produtos db
        ∧ ∀ x, x ∈ itens_pedido db →
               ¬ (ItemPedido.pedido x = ItemPedido.pedido r
                  ∧ ItemPedido.produto x = ItemPedido.produto r).
Proof.
  unfold Store.create_ItemPedido. intros H. insert_inv H.
  destruct Hi as (r' & Hp & -> & Hk & (Hq & Hpe & Hpr & _) & (Hu & _)).
  exists r'. split; [exact Hp |].
  apply ItemPedido_db_prep_Ok in Hp as (pu & st & _ & _ & _ & ->).
  cbn [ItemPedido.quantidade ItemPedido.pedido ItemPedido.produto] in *.
  rewrite stored_true in Hpe, Hpr. apply Z.leb_le in Hq.
  repeat split; try assumption.
  intros x Hx. now apply (same_key_false_ItemPedido _ x), Hu.
Qed.

Lemma create_AvaliacaoProduto_inv (backend : Django.Backend) (db db' : DB)
    (agora k : Z) (r : AvaliacaoProduto.t) :
  Store.create_AvaliacaoProduto backend db agora k r = Py.Ok db' →
  AvaliacaoProduto.db_prep backend (AvaliacaoProduto.stamp agora r)
  = Py.Ok (AvaliacaoProduto.stamp agora r)
  ∧ db' = with_avaliacoes
            (avaliacoes db
             ++ [AvaliacaoProduto.set_id k (AvaliacaoProduto.stamp agora r)]) db
  ∧ (k ∉ AvaliacaoProduto.id <$> avaliacoes db)
  ∧ 0 ≤ AvaliacaoProduto.nota r
  ∧ AvaliacaoProduto.produto r ∈ Produto.id <$> produtos db
  ∧ AvaliacaoProduto.cliente r ∈ Cliente.id <$> clientes db
  ∧ ∀ x, x ∈ avaliacoes db →
         ¬ (AvaliacaoProduto.produto x = AvaliacaoProduto.produto r
            ∧ AvaliacaoProduto.cliente x = AvaliacaoProduto.cliente r).
Proof.
  unfold Store.create_AvaliacaoProduto. intros H. insert_inv H.
  destruct Hi as (r' & Hp & -> & Hk & (Hq & Hpe & Hpr & _) & (Hu & _)).
  pose proof Hp as Hp'.
  apply AvaliacaoProduto_db_prep_Ok in Hp' as [_ ->].
  cbn [AvaliacaoProduto.stamp AvaliacaoProduto.nota AvaliacaoProduto.produto
       AvaliacaoProduto.cliente] in Hq, Hpe, Hpr.
  rewrite stored_true in Hpe, Hpr. apply Z.leb_le in Hq.
  repeat split; try assumption.
  intros x Hx.
  now apply (same_key_false_AvaliacaoProduto (AvaliacaoProduto.stamp agora r) x), Hu.
Qed.

Lemma create_ItemCarrinho_inv (backend : Django.Backend) (db db' : DB) (k : Z)
    (r : ItemCarrinho.t) :
  Store.create_ItemCarrinho backend db k r = Py.Ok db' →
  ∃ r', ItemCarrinho.db_prep backend r = Py.Ok r'
        ∧ db' = with_itens_carrinho
                  (itens_carrinho db ++ [ItemCarrinho.set_id k r']) db
        ∧ (k ∉ ItemCarrinho.id <$> itens_carrinho db)
        ∧ 0 ≤ ItemCarrinho.quantidade r
        ∧ ItemCarrinho.carrinho r ∈ Carrinho.id <$> carrinhos db
        ∧ ItemCarrinho.produto r ∈ Produto.id <$> produtos db
        ∧ ∀ x, x ∈ itens_carrinho db →
               ¬ (ItemCarrinho.carrinho x = ItemCarrinho.carrinho r
                  ∧ ItemCarrinho.produto x = ItemCarrinho.produto r).
Proof.
  unfold Store.create_ItemCarrinho. intros H. insert_inv H.
  destruct Hi as (r' & Hp & -> & Hk & (Hq & Hpe & Hpr & _) & (Hu & _)).
  exists r'. split; [exact Hp |].
  apply ItemCarrinho_db_prep_Ok in Hp as (pu & st & _ & _ & _ & ->).
  cbn [ItemCarrinho.quantidade ItemCarrinho.carrinho ItemCarrinho.produto] in *.
  rewrite stored_true in Hpe, Hpr. apply Z.leb_le in Hq.
  repeat split; try assumption.
  intros x Hx. now apply (same_key_false_ItemCarrinho _ x), Hu.
Qed.

Lemma create_Estoque_inv (backend : Django.Backend) (db db' : DB) (agora k : Z)
    (r : Estoque.t) :
  Lifecycle.create_Estoque backend db agora k r = Py.Ok db' →
  db' = with_estoques
          (estoques db ++ [EstoqueRow.set_id k (EstoqueRow.stamp agora r)]) db
  ∧ (k ∉ Estoque.id <$> estoques db)
  ∧ Estoque.produto r ∈ Produto.id <$> produtos db
  ∧ ∀ x, x ∈ estoques db → Estoque.produto x ≠ Estoque.produto r.
Proof.
  unfold Lifecycle.create_Estoque. intros H. insert_inv H.
  destruct Hi as (r' & Hp & -> & Hk & (Hpr & _) & (Hu & _)).
  apply Estoque_db_prep_Ok in Hp as [_ ->].
  cbn [EstoqueRow.stamp Estoque.produto] in Hpr. rewrite stored_true in Hpr.
  repeat split; try assumption.
  intros x Hx. now apply (same_key_false_Estoque (EstoqueRow.stamp agora r) x), Hu.
Qed.

Lemma create_Carrinho_inv (db db' : DB) (agora k : Z) (r : Carrinho.t) :
  Lifecycle.create_Carrinho db agora k r = Py.Ok db' →
  db' = with_carrinhos
          (carrinhos db ++ [CarrinhoRow.set_id k (CarrinhoRow.stamp agora r)]) db
  ∧ (k ∉ Carrinho.id <$> carrinhos db)
  ∧ Carrinho.cliente r ∈ Cliente.id <$> clientes db
  ∧ ∀ x, x ∈ carrinhos db → Carrinho.cliente x ≠ Carrinho.cliente r.
Proof.
  unfold Lifecycle.create_Carrinho. intros H. insert_inv H.
  destruct Hi as (r' & [= <-] & -> & Hk & (Hpr & _) & (Hu & _)).
  cbn [CarrinhoRow.stamp Carrinho.cliente] in Hpr. rewrite stored_true in Hpr.
  repeat split; try assumption.
  intros x Hx. now apply (same_key_false_Carrinho (CarrinhoRow.stamp agora r) x), Hu.
Qed.

(** ** Quantities *)

Lemma ItemPedido_db_prep_keeps (backend : Django.Backend) (r r' : ItemPedido.t) :
  ItemPedido.db_prep backend r = Py.Ok r' →
  ItemPedido.pedido r' = ItemPedido.pedido r
  ∧ ItemPedido.produto r' = ItemPedido.produto r
  ∧ ItemPedido.quantidade r' = ItemPedido.quantidade r.
Proof.
  intros H. apply ItemPedido_db_prep_Ok in H as (pu & st & _ & _ & _ & ->).
  repeat split.
Qed.

Lemma ItemCarrinho_db_prep_keeps (backend : Django.Backend)
    (r r' : ItemCarrinho.t) :
  ItemCarrinho.db_prep backend r = Py.Ok r' →
  ItemCarrinho.carrinho r' = ItemCarrinho.carrinho r
  ∧ ItemCarrinho.produto r' = ItemCarrinho.produto r
  ∧ ItemCarrinho.quantidade r' = ItemCarrinho.quantidade r.
Proof.
  intros H. apply ItemCarrinho_db_prep_Ok in H as (pu & st & _ & _ & _ & ->).
  repeat split.
Qed.






(** ** Validation and writes *)

(** C4, as stated, fails: creating a product whose price is 0 and whose
    stock is negative is not rejected, no validator being run on a write. *)
Lemma C4_create_not_rejected :
  ¬ (∀ (backend : Django.Backend) (db : DB) (agora k : Z) (p : Produto.t),
        (Produto.preco p <= 0)%Q ∨ Produto.estoque p < 0 →
        Py.is_ok (Store.create_Produto backend db agora k p) = false).
Proof.
  intros H.
  specialize (H Django.sqlite empty_db 1718400000 1
                (Produto.Make 0 "A" "" 0.00 None true (-1) 0 0)).
  cbn in H. assert (true = false) as Hf; [| discriminate Hf].
  apply H. right. lia.
Qed.

(** Membership in the keys of a list of choices, as [Field.validate] tests
    it. *)
Lemma choice_found (options : list (string * string)) (s : string) :
  existsb (λ o, String.eqb s o.1) options = true ↔ s ∈ options.*1.
Proof.
  rewrite existsb_exists, list_elem_of_fmap. split.
  - intros (o & Hin & Heq). apply String.eqb_eq in Heq.
    exists o. split; [assumption | now apply list_elem_of_In].
  - intros (o & -> & Hin). exists o. split; [now apply list_elem_of_In |].
    apply String.eqb_refl.
Qed.

(** Cleaning a text held by a required field with choices and no declared
    validators. *)
Lemma clean_choice (backend : Django.Backend) (f : Django.Field string)
    (options : list (string * string)) (s : string) :
  Django.blank f = false → Django.choices f = Some options →
  Django.clean backend f (Some s)
  = if decide (s = "") then ["blank"]
    else if decide (s ∈ options.*1) then [] else ["invalid_choice"].
Proof.
  intros Hb Hc.
  unfold Django.clean, Django.validate, Django.validate_empty,
    Django.run_validators.
  rewrite Hb, Hc.
  cbn [andb negb Django.is_empty Django.PyValue_str Django.as_number
       Django.value_eqb].
  destruct (decide (s = "")) as [-> | Hne].
  - reflexivity.
  - rewrite (bool_decide_eq_false_2 _ Hne).
    destruct (existsb _ _) eqn:E.
    + apply choice_found in E. now rewrite decide_True.
    + rewrite decide_False; [reflexivity |].
      intros Hin. apply choice_found in Hin. congruence.
Qed.

Lemma estados_no_blank : "" ∉ Cliente.ESTADOS_BRASILEIROS.*1.
Proof. apply (bool_decide_unpack _). vm_compute. reflexivity. Qed.

(** C4, amended: a write that runs boundary field validation first
    ([full_clean] before the save; a write that skips it is not checked by
    the validators) is rejected by it -- the write is not run and
    [ValidationError] carries what validation reported -- when the product
    price is 0 or less, the product stock is negative, a review rating is
    below 1 or above 5, a promotion discount is below 0 or above 100, or a
    customer state code is not one of the 27 choices, such as ZZ; what is
    reported names the field and the code of the constraint.  Ratings from 1
    to 5 and the 27 state codes pass. *)
Theorem C4_validation_reports (backend : Django.Backend) :
  (∀ x : Q, (x <= 0)%Q →
      ("preco", "min_value")
      ∈ Django.field_errors backend Produto.preco_field (Some x))
  ∧ (∀ z : Z, z < 0 →
      ("estoque", "min_value")
      ∈ Django.field_errors backend Produto.estoque_field (Some z))
  ∧ (∀ z : Z, z < 1 →
      ("nota", "min_value")
      ∈ Django.field_errors backend AvaliacaoProduto.nota_field (Some z))
  ∧ (∀ z : Z, 5 < z →
      ("nota", "max_value")
      ∈ Django.field_errors backend AvaliacaoProduto.nota_field (Some z))
  ∧ (∀ z : Z, Django.supported backend → 1 ≤ z ≤ 5 →
      Django.field_errors backend AvaliacaoProduto.nota_field (Some z) = [])
  ∧ (∀ x : Q, (x < 0)%Q →
      ("desconto_percentual", "min_value")
      ∈ Django.field_errors backend Promocao.desconto_percentual_field (Some x))
  ∧ (∀ x : Q, (100 < x)%Q →
      ("desconto_percentual", "max_value")
      ∈ Django.field_errors backend Promocao.desconto_percentual_field (Some x))
  ∧ (∀ s : string, s ∉ Cliente.ESTADOS_BRASILEIROS.*1 →
      Django.field_errors backend Cliente.estado_field (Some s)
      = [("estado", if decide (s = "") then "blank" else "invalid_choice")])
  ∧ (∀ s : string, s ∈ Cliente.ESTADOS_BRASILEIROS.*1 →
      Django.field_errors backend Cliente.estado_field (Some s) = [])
  ∧ length Cliente.ESTADOS_BRASILEIROS = 27%nat
  ∧ NoDup Cliente.ESTADOS_BRASILEIROS.*1
  ∧ Django.field_errors backend Cliente.estado_field (Some "ZZ")
    = [("estado", "invalid_choice")]
  ∧ (∀ (A : Type) (write : Py.result A) (errors : list (string * string))
       (entry : string * string),
        entry ∈ errors →
        Django.full_clean_then errors write
        = Py.Err (Py.ValidationError errors))
  ∧ (∀ (A : Type) (write : Py.result A), Django.full_clean_then [] write = write).
Proof.
  repeat apply conj.
  - intros x Hx. apply (field_errors_code backend Produto.preco_field).
    rewrite clean_decimal by reflexivity.
    eapply min_value_reported; [apply list_elem_of_here |].
    eapply Qle_lt_trans; [exact Hx | reflexivity].
  - intros z Hz.
    apply (declared_min_reported backend Produto.estoque_field 0 z);
      [reflexivity | reflexivity | apply list_elem_of_here |].
    now apply (inject_Z_lt z 0).
  - intros z Hz.
    apply (declared_min_reported backend AvaliacaoProduto.nota_field 1 z);
      [reflexivity | reflexivity | apply list_elem_of_here |].
    now apply (inject_Z_lt z 1).
  - intros z Hz.
    apply (declared_max_reported backend AvaliacaoProduto.nota_field 5 z);
      [reflexivity | reflexivity
      | apply elem_of_cons; right; apply list_elem_of_here |].
    now apply (inject_Z_lt 5 z).
  - intros z Hs Hz. unfold Django.field_errors.
    rewrite clean_int, validators_nota by (reflexivity || assumption).
    cbn [omap list_omap Django.run_validator].
    assert (Django.Qlt_bool (inject_Z z) 1 = false) as ->.
    { apply Qlt_bool_false. unfold Qle; cbn. lia. }
    assert (Django.Qlt_bool 5 (inject_Z z) = false) as ->.
    { apply Qlt_bool_false. unfold Qle; cbn. lia. }
    reflexivity.
  - intros x Hx.
    apply (field_errors_code backend Promocao.desconto_percentual_field).
    rewrite clean_decimal by reflexivity.
    eapply min_value_reported; [apply list_elem_of_here |].
    eapply Qlt_le_trans; [exact Hx | unfold Qle; cbn; lia].
  - intros x Hx.
    apply (field_errors_code backend Promocao.desconto_percentual_field).
    rewrite clean_decimal by reflexivity.
    eapply max_value_reported;
      [apply elem_of_cons; right; apply list_elem_of_here |].
    eapply Qle_lt_trans; [| exact Hx]. unfold Qle; cbn; lia.
  - intros s Hs. unfold Django.field_errors.
    rewrite (clean_choice backend _ Cliente.ESTADOS_BRASILEIROS) by reflexivity.
    destruct (decide (s = "")); [reflexivity |].
    now rewrite decide_False by assumption.
  - intros s Hs. unfold Django.field_errors.
    rewrite (clean_choice backend _ Cliente.ESTADOS_BRASILEIROS) by reflexivity.
    destruct (decide (s = "")) as [-> | Hne];
      [now apply estados_no_blank in Hs |].
    now rewrite decide_True.
  - reflexivity.
  - apply (bool_decide_unpack _). vm_compute. reflexivity.
  - reflexivity.
  - intros A write errors entry Hin. destruct errors; [| reflexivity].
    now apply elem_of_nil in Hin.
  - reflexivity.
Qed.

Lemma C4_validation_reports_witness :
  ("preco", "min_value")
  ∈ Django.field_errors Django.sqlite Produto.preco_field (Some 0%Q)
  ∧ Django.field_errors Django.sqlite AvaliacaoProduto.nota_field (Some 3) = []
  ∧ Django.full_clean_then
      (Django.field_errors Django.sqlite Produto.preco_field (Some 0%Q))
      (Store.create_Produto Django.sqlite empty_db 1718400000 1
         (Produto.Make 0 "A" "" 0.00 None true 3 0 0))
    = Py.Err (Py.ValidationError [("preco", "min_value")]).
Proof.
  destruct (C4_validation_reports Django.sqlite)
    as (Hpreco & _ & _ & _ & Hnota & _ & _ & _ & _ & _ & _ & _ & Hthen & _).
  split; [| split].
  - apply (Hpreco 0%Q). unfold Qle; cbn; lia.
  - apply (Hnota 3 supported_sqlite). lia.
  - apply (Hthen DB _ _ ("preco", "min_value")). apply list_elem_of_here.
Defined.

(** ** Unique pairs *)






(** * Further properties *)

(** ** Cliente.idade over time *)

Lemma idade_Some (hoje b : Py.date) (c : Cliente.t) :
  Cliente.data_nascimento c = Some b →
  Cliente.idade hoje c
  = Some (Py.year hoje - Py.year b
          - Py.int_of_bool (bool_decide (Cliente.earlier_in_year hoje b))).
Proof.
  intros Hb. unfold Cliente.idade. rewrite Hb.
  cbn [Py.truthy_date mbind option_bind].
  now rewrite tuple_lt_month_day.
Qed.

Lemma idade_None (hoje : Py.date) (c : Cliente.t) :
  Cliente.data_nascimento c = None → Cliente.idade hoje c = None.
Proof. intros Hb. unfold Cliente.idade. now rewrite Hb. Qed.

Lemma before_spec (a b : Py.date) :
  DateOrder.before a b = true
  ↔ Py.year a < Py.year b
    ∨ (Py.year a = Py.year b ∧ Cliente.earlier_in_year a b).
Proof.
  unfold DateOrder.before.
  change (Py.tuple_lt [Py.year a; Py.month a; Py.day a]
                      [Py.year b; Py.month b; Py.day b])
    with (if Py.year a =? Py.year b
          then Py.tuple_lt [Py.month a; Py.day a] [Py.month b; Py.day b]
          else Py.year a <? Py.year b).
  rewrite tuple_lt_month_day.
  destruct (Z.eqb_spec (Py.year a) (Py.year b)) as [Hy | Hy].
  - rewrite bool_decide_eq_true. intuition lia.
  - rewrite Z.ltb_lt. intuition lia.
Qed.

Lemma before_false (a b : Py.date) :
  DateOrder.before a b = false
  ↔ ¬ (Py.year a < Py.year b
       ∨ (Py.year a = Py.year b ∧ Cliente.earlier_in_year a b)).
Proof. rewrite <- before_spec. now destruct (DateOrder.before a b). Qed.

(** X1: the age is the one integer [a] for which today is on or after the
    [a]-th anniversary of the birth date and before the next one. *)
Theorem idade_between_anniversaries (hoje b : Py.date) (c : Cliente.t) (a : Z) :
  Cliente.data_nascimento c = Some b →
  (Cliente.idade hoje c = Some a
   ↔ DateOrder.before hoje (DateOrder.anniversary b a) = false
     ∧ DateOrder.before hoje (DateOrder.anniversary b (a + 1)) = true).
Proof.
  intros Hb. rewrite (idade_Some hoje b c Hb), before_false, before_spec.
  unfold DateOrder.anniversary, Cliente.earlier_in_year; cbn [Py.year Py.month Py.day].
  destruct (decide (Cliente.earlier_in_year hoje b)) as [He | He].
  - rewrite (bool_decide_eq_true_2 _ He). cbn [Py.int_of_bool].
    unfold Cliente.earlier_in_year in He. split.
    + intros [= <-]. lia.
    + intros [H1 H2]. f_equal. lia.
  - rewrite (bool_decide_eq_false_2 _ He). cbn [Py.int_of_bool].
    unfold Cliente.earlier_in_year in He. split.
    + intros [= <-]. lia.
    + intros [H1 H2]. f_equal. lia.
Qed.

Lemma idade_between_anniversaries_witness :
  Cliente.idade (Py.Date 2024 6 15) Sample.cliente = Some 23
  ↔ DateOrder.before (Py.Date 2024 6 15) (Py.Date 2023 6 16) = false
    ∧ DateOrder.before (Py.Date 2024 6 15) (Py.Date 2024 6 16) = true.
Proof.
  exact (idade_between_anniversaries (Py.Date 2024 6 15) (Py.Date 2000 6 16)
           Sample.cliente 23 eq_refl).
Defined.

(** X2: the age never goes down as the day advances: if [h2] is not before
    [h1], the age on [h2] is at least the age on [h1]. *)
Theorem idade_monotone (h1 h2 : Py.date) (c : Cliente.t) (a1 a2 : Z) :
  DateOrder.before h2 h1 = false →
  Cliente.idade h1 c = Some a1 →
  Cliente.idade h2 c = Some a2 →
  a1 ≤ a2.
Proof.
  intros Hord H1 H2.
  destruct (Cliente.data_nascimento c) as [b |] eqn:Hb.
  - rewrite (idade_Some h1 b c Hb) in H1. rewrite (idade_Some h2 b c Hb) in H2.
    injection H1 as <-. injection H2 as <-.
    apply before_false in Hord.
    destruct (decide (Cliente.earlier_in_year h1 b)) as [E1 | E1];
      destruct (decide (Cliente.earlier_in_year h2 b)) as [E2 | E2];
      rewrite ?(bool_decide_eq_true_2 _ E1), ?(bool_decide_eq_false_2 _ E1),
        ?(bool_decide_eq_true_2 _ E2), ?(bool_decide_eq_false_2 _ E2);
      cbn [Py.int_of_bool];
      unfold Cliente.earlier_in_year in *; lia.
  - rewrite (idade_None _ c Hb) in H1. discriminate.
Qed.

Lemma idade_monotone_witness : 23 ≤ 24.
Proof.
  exact (idade_monotone (Py.Date 2024 6 15) (Py.Date 2024 6 16) Sample.cliente
           23 24 eq_refl eq_refl eq_refl).
Defined.

(** X3: nothing keeps the birth date in the past: the age is negative
    exactly when today is before the birth date, and 0 on the birth date
    itself. *)
Theorem idade_negative_iff (hoje b : Py.date) (c : Cliente.t) (a : Z) :
  Cliente.data_nascimento c = Some b →
  Cliente.idade hoje c = Some a →
  (a < 0 ↔ DateOrder.before hoje b = true) ∧ (hoje = b → a = 0).
Proof.
  intros Hb Ha. rewrite (idade_Some hoje b c Hb) in Ha. injection Ha as <-.
  rewrite before_spec.
  destruct (decide (Cliente.earlier_in_year hoje b)) as [He | He].
  - rewrite (bool_decide_eq_true_2 _ He). cbn [Py.int_of_bool].
    unfold Cliente.earlier_in_year in *. split; [split; lia |].
    intros ->. lia.
  - rewrite (bool_decide_eq_false_2 _ He). cbn [Py.int_of_bool].
    unfold Cliente.earlier_in_year in *. split; [split; lia |].
    intros ->. lia.
Qed.

Lemma idade_negative_iff_witness :
  (-1 < 0 ↔ DateOrder.before (Py.Date 2000 6 15) (Py.Date 2000 6 16) = true)
  ∧ (Py.Date 2000 6 15 = Py.Date 2000 6 16 → -1 = 0).
Proof.
  exact (idade_negative_iff (Py.Date 2000 6 15) (Py.Date 2000 6 16)
           Sample.cliente (-1) eq_refl eq_refl).
Defined.

(** ** Reverse accessors of the whole schema *)

(** X4: [Pedido.numero_itens] raises [AttributeError] for every order and
    every content of the database: the order items of an order are under
    [itens], and [itempedido_set] names nothing on a [Pedido]. *)
Theorem pedido_numero_itens_raises (db : DB) (p : Pedido.t) :
  PedidoProps.numero_itens db p
  = Py.Err (Py.AttributeError "Pedido" "itempedido_set")
  ∧ PedidoProps.manager db p "itens"
    = Py.Ok (filter (λ i, ItemPedido.pedido i = Pedido.id p) (itens_pedido db)).
Proof. split; reflexivity. Qed.

(** X5: every relation of the schema is found from the model it points to
    under its accessor name, so no two accessors of a model collide; and a
    relation declared with a [related_name] is not reachable under the
    default name made of the lower-case class name and [_set]. *)
Theorem reverse_accessor_of_relation (r : Django.Relation) :
  r ∈ Django.relations →
  Django.reverse_accessor (Django.rel_to r) (Django.get_accessor_name r) = Some r
  ∧ (is_Some (Django.rel_related_name r) →
     Django.reverse_accessor (Django.rel_to r)
       (Django.model_name (Django.rel_model r) +:+ "_set") = None).
Proof.
  intros Hin. unfold Django.relations in Hin.
  repeat (apply elem_of_cons in Hin as [-> | Hin];
          [split; [reflexivity | intros Hn; try reflexivity;
                                 destruct Hn as [? Hn]; discriminate Hn] |]).
  now apply elem_of_nil in Hin.
Qed.

Lemma reverse_accessor_of_relation_witness :
  Django.reverse_accessor "Carrinho" "itemcarrinho_set" = None.
Proof.
  refine (proj2 (reverse_accessor_of_relation
                   (Django.Build_Relation "ItemCarrinho" "carrinho"
                      Django.ForeignKey "Carrinho" (Some Django.CASCADE) false
                      (Some "itens")) _) _).
  - do 11 (apply elem_of_cons; right). apply elem_of_cons; left. reflexivity.
  - eexists. reflexivity.
Defined.

(** ** Bounds of the validators *)

Lemma field_errors_iff {V} `{Django.PyValue V} (backend : Django.Backend)
    (f : Django.Field V) (value : option V) (code : string) :
  (Django.name f, code) ∈ Django.field_errors backend f value
  ↔ code ∈ Django.clean backend f value.
Proof.
  unfold Django.field_errors. rewrite list_elem_of_fmap. split.
  - intros (code' & [= <-] & Hin). exact Hin.
  - intros Hin. exists code. split; [reflexivity | exact Hin].
Qed.

Lemma min_value_iff (limit x : Q) (vs : list Django.Validator) :
  (∀ l, Django.MinValueValidator l ∈ vs → l = limit) →
  Django.MinValueValidator limit ∈ vs →
  "min_value" ∈ omap (λ val, Django.run_validator val x) vs ↔ (x < limit)%Q.
Proof.
  intros Honly Hin. split.
  - intros Hc. apply list_elem_of_omap in Hc as (v & Hv & Hrun).
    destruct v as [l | l]; cbn in Hrun.
    + rewrite (Honly l Hv) in Hrun.
      destruct (Django.Qlt_bool x limit) eqn:E; [| discriminate].
      now apply Qlt_bool_true.
    + destruct (Django.Qlt_bool l x); discriminate.
  - intros Hlt. now apply (min_value_reported vs limit).
Qed.

Lemma max_value_iff (limit x : Q) (vs : list Django.Validator) :
  (∀ l, Django.MaxValueValidator l ∈ vs → l = limit) →
  Django.MaxValueValidator limit ∈ vs →
  "max_value" ∈ omap (λ val, Django.run_validator val x) vs ↔ (limit < x)%Q.
Proof.
  intros Honly Hin. split.
  - intros Hc. apply list_elem_of_omap in Hc as (v & Hv & Hrun).
    destruct v as [l | l]; cbn in Hrun.
    + destruct (Django.Qlt_bool x l); discriminate.
    + rewrite (Honly l Hv) in Hrun.
      destruct (Django.Qlt_bool limit x) eqn:E; [| discriminate].
      now apply Qlt_bool_true.
  - intros Hlt. now apply (max_value_reported vs limit).
Qed.

(** X6: the minimum of [preco] is the float 0.01, which lies above one
    hundredth: [min_value] is reported exactly for the prices below that
    float, hence for every price up to and including 0.01, and for no price
    from 0.02 on, whatever the database. *)
Theorem preco_min_value (backend : Django.Backend) (x : Q) :
  (("preco", "min_value") ∈ Django.field_errors backend Produto.preco_field (Some x)
   ↔ (x < Produto.float_0_01)%Q)
  ∧ ((x <= 0.01)%Q →
     ("preco", "min_value") ∈ Django.field_errors backend Produto.preco_field (Some x))
  ∧ ((0.02 <= x)%Q →
     ("preco", "min_value") ∉ Django.field_errors backend Produto.preco_field (Some x)).
Proof.
  assert (("preco", "min_value") ∈ Django.field_errors backend Produto.preco_field (Some x)
          ↔ (x < Produto.float_0_01)%Q) as Hiff.
  { rewrite (field_errors_iff backend Produto.preco_field).
    rewrite clean_decimal by reflexivity.
    apply min_value_iff.
    - intros l Hl. apply list_elem_of_singleton in Hl. congruence.
    - apply list_elem_of_here. }
  split; [exact Hiff | split].
  - intros Hx. apply Hiff. eapply Qle_lt_trans; [exact Hx | reflexivity].
  - intros Hx Hin. apply Hiff in Hin.
    assert (0.02 < Produto.float_0_01)%Q as Habs
      by (eapply Qle_lt_trans; [exact Hx | exact Hin]).
    revert Habs. unfold Qlt; cbn. lia.
Qed.

Lemma preco_min_value_witness :
  ("preco", "min_value")
  ∈ Django.field_errors Django.sqlite Produto.preco_field (Some 0.01%Q).
Proof.
  apply (proj1 (proj2 (preco_min_value Django.sqlite 0.01%Q))).
  unfold Qle; cbn; lia.
Defined.

(** X7: for [desconto_percentual] the two range errors are reported exactly
    outside the closed interval from 0 to 100: [min_value] below 0,
    [max_value] above 100, and neither at the two ends, whatever the
    database. *)
Theorem desconto_range (backend : Django.Backend) (x : Q) :
  (("desconto_percentual", "min_value")
   ∈ Django.field_errors backend Promocao.desconto_percentual_field (Some x)
   ↔ (x < 0)%Q)
  ∧ (("desconto_percentual", "max_value")
     ∈ Django.field_errors backend Promocao.desconto_percentual_field (Some x)
     ↔ (100 < x)%Q).
Proof.
  rewrite !(field_errors_iff backend Promocao.desconto_percentual_field).
  rewrite clean_decimal by reflexivity.
  change (Django.field_validators backend Promocao.desconto_percentual_field)
    with [Django.MinValueValidator 0.00; Django.MaxValueValidator 100.00].
  split.
  - rewrite (min_value_iff 0.00).
    + split; intros Hx; (eapply Qlt_le_trans; [exact Hx | unfold Qle; cbn; lia]).
    + intros l Hl. apply elem_of_cons in Hl as [[= ->] | Hl]; [reflexivity |].
      apply list_elem_of_singleton in Hl. discriminate.
    + apply list_elem_of_here.
  - rewrite (max_value_iff 100.00).
    + split; intros Hx; (eapply Qle_lt_trans; [| exact Hx]; unfold Qle; cbn; lia).
    + intros l Hl. apply elem_of_cons in Hl as [Hl | Hl]; [discriminate |].
      apply list_elem_of_singleton in Hl. congruence.
    + apply elem_of_cons; right. apply list_elem_of_here.
Qed.

(** ** Stock flags *)

(** X8: a stock row that is not available always needs restocking; read one
    after the other the two flags leave the row as it was; and for a row
    whose quantity passes the validation of [quantidade], not available
    means a quantity of exactly 0, whatever the database. *)
Theorem estoque_flags_together (e : Estoque.t) :
  ((Estoque.disponivel e).1 = false → (Estoque.precisa_reposicao e).1 = true)
  ∧ Estoque.bind Estoque.disponivel
      (λ a, Estoque.bind Estoque.precisa_reposicao (λ b, Estoque.ret (a, b))) e
    = (((Estoque.disponivel e).1, (Estoque.precisa_reposicao e).1), e)
  ∧ (∀ backend : Django.Backend,
       Django.clean backend Estoque.quantidade_field
         (Some (Estoque.quantidade e)) = [] →
     ((Estoque.disponivel e).1 = false ↔ Estoque.quantidade e = 0)).
Proof.
  unfold Estoque.disponivel, Estoque.precisa_reposicao, Estoque.bind,
    Estoque.attr, Estoque.ret; cbn [fst snd].
  split; [| split].
  - rewrite bool_decide_eq_false, bool_decide_eq_true. lia.
  - reflexivity.
  - intros backend Hclean.
    apply (clean_min_zero backend Estoque.quantidade_field
             (Estoque.quantidade e) eq_refl eq_refl (list_elem_of_here _ _))
      in Hclean.
    rewrite bool_decide_eq_false. lia.
Qed.

Lemma estoque_flags_together_witness :
  (Estoque.precisa_reposicao (Estoque.Make 1 7 0 1700000000)).1 = true.
Proof.
  exact (proj1 (estoque_flags_together (Estoque.Make 1 7 0 1700000000)) eq_refl).
Defined.

(** ** Status fields *)

(** X9: the status of an order passes validation exactly when it is one of
    the five declared codes, and the status of a payment exactly when it is
    one of the three; the default of each, [pendente], is among them, and
    every code fits the 20 characters of the column. *)
Theorem status_choices (backend : Django.Backend) (gettext : string → string)
    (s : string) :
  (Django.clean backend (PedidoProps.status_field gettext) (Some s) = []
   ↔ s ∈ ["pendente"; "processando"; "enviado"; "entregue"; "cancelado"])
  ∧ (Django.clean backend (Pagamento.status_field gettext) (Some s) = []
     ↔ s ∈ ["pago"; "pendente"; "rejeitado"])
  ∧ Django.clean backend (PedidoProps.status_field gettext)
      (Django.get_default (PedidoProps.status_field gettext) None) = []
  ∧ Django.clean backend (Pagamento.status_field gettext)
      (Django.get_default (Pagamento.status_field gettext) None) = []
  ∧ Forall (λ o, (String.length o.1 ≤ 20)%nat)
      (PedidoProps.STATUS_PEDIDO gettext
       ++ Pagamento.STATUS_PAGAMENTO_CHOICES gettext).
Proof.
  split; [| split; [| split; [| split]]].
  - rewrite (clean_choice backend _ (PedidoProps.STATUS_PEDIDO gettext))
      by reflexivity.
    cbn [fmap list_fmap PedidoProps.STATUS_PEDIDO fst].
    destruct (decide (s = "")) as [-> | Hne].
    + split; [discriminate |]. intros Hin.
      repeat (apply elem_of_cons in Hin as [Hin | Hin]; [discriminate |]).
      now apply elem_of_nil in Hin.
    + destruct (decide _) as [Hin | Hin]; [tauto |]. split; [discriminate | tauto].
  - rewrite (clean_choice backend _ (Pagamento.STATUS_PAGAMENTO_CHOICES gettext))
      by reflexivity.
    cbn [fmap list_fmap Pagamento.STATUS_PAGAMENTO_CHOICES fst
         Pagamento.PEDIDO_PAGO Pagamento.PEDIDO_PENDENTE Pagamento.PEDIDO_REJEITADO].
    unfold Pagamento.PEDIDO_PAGO, Pagamento.PEDIDO_PENDENTE,
      Pagamento.PEDIDO_REJEITADO.
    destruct (decide (s = "")) as [-> | Hne].
    + split; [discriminate |]. intros Hin.
      repeat (apply elem_of_cons in Hin as [Hin | Hin]; [discriminate |]).
      now apply elem_of_nil in Hin.
    + destruct (decide _) as [Hin | Hin]; [tauto |]. split; [discriminate | tauto].
  - reflexivity.
  - reflexivity.
  - repeat constructor; cbn; lia.
Qed.


(** ** When a create succeeds *)







(** ** Invariants of the stored rows *)

Lemma NoDup_fmap_snoc {A K} (f : A → K) (l : list A) (x : A) :
  NoDup (f <$> l) → (∀ y, y ∈ l → f y ≠ f x) → NoDup (f <$> (l ++ [x])).
Proof.
  intros Hnd Hnew. rewrite fmap_app. apply NoDup_app.
  split; [exact Hnd | split].
  - intros k Hk Hk'. apply list_elem_of_singleton in Hk'. subst k.
    apply list_elem_of_fmap in Hk as (y & Heq & Hy).
    now apply (Hnew y Hy).
  - apply NoDup_singleton.
Qed.

Lemma NoDup_fmap_filter {A K} (f : A → K) (P : A → Prop)
    `{∀ x, Decision (P x)} (l : list A) :
  NoDup (f <$> l) → NoDup (f <$> filter P l).
Proof.
  induction l as [| a l IH]; [intros _; constructor |].
  rewrite fmap_cons, NoDup_cons. intros [Hnotin Hnd].
  destruct (decide (P a)) as [Hp | Hp].
  - rewrite filter_cons_True by assumption.
    rewrite fmap_cons. apply NoDup_cons. split; [| now apply IH].
    intros Hin. apply Hnotin.
    apply list_elem_of_fmap in Hin as (y & Heq & Hy).
    apply list_elem_of_filter in Hy as [_ Hy].
    apply list_elem_of_fmap. eauto.
  - rewrite filter_cons_False by assumption. now apply IH.
Qed.

Lemma ids_snoc {A} (f : A → Z) (l : list A) (x : A) (ref : Z) :
  ref ∈ f <$> l → ref ∈ f <$> (l ++ [x]).
Proof. intros Hin. rewrite fmap_app. apply elem_of_app. now left. Qed.

Lemma ids_filter {A} (f : A → Z) (Q : A → Prop) `{∀ x, Decision (Q x)}
    (l : list A) (ref : Z) :
  ref ∈ f <$> l → (∀ x, f x = ref → Q x) → ref ∈ f <$> filter Q l.
Proof.
  intros Hin Hq. apply list_elem_of_fmap in Hin as (x & -> & Hx).
  apply list_elem_of_fmap. exists x. split; [reflexivity |].
  apply list_elem_of_filter. split; [now apply Hq | exact Hx].
Qed.

Lemma set_null_ids (target : Z) (ps : list Produto.t) :
  Produto.id <$> Django.set_null_rows Produto.categoria
                   (Produto.set_categoria None) target ps
  = Produto.id <$> ps.
Proof.
  unfold Django.set_null_rows. rewrite <- list_fmap_compose.
  apply list_fmap_ext. intros i p _. cbn. now destruct (decide _).
Qed.

Lemma not_elem_of_singleton_Z (x y : Z) : x ∉ [y] ↔ x ≠ y.
Proof. now rewrite list_elem_of_singleton. Qed.


Lemma unique_keys_step (backend : Django.Backend) (db db' : DB) :
  Writes.step backend db db' →
  Integrity.unique_keys db → Integrity.unique_keys db'.
Proof.
  intros Hstep [Hip Hav Hic He Hc].
  destruct Hstep as [t k p db' H | k r db' H | t k r db' H | k r db' H
                    | t k r db' H | t k r db' H | c | p | c].
  - apply create_Produto_inv in H as (p' & _ & -> & _). now constructor.
  - apply create_ItemPedido_inv in H as (r' & Hprep & -> & _ & _ & _ & _ & Hnew).
    apply ItemPedido_db_prep_keeps in Hprep as (Hp & Hpr & _).
    constructor; cbn; try assumption.
    apply NoDup_fmap_snoc; [assumption |].
    intros y Hy Heq. apply (Hnew y Hy). cbn in Heq. split; congruence.
  - apply create_AvaliacaoProduto_inv in H as (_ & -> & _ & _ & _ & _ & Hnew).
    constructor; cbn; try assumption.
    apply NoDup_fmap_snoc; [assumption |].
    intros y Hy Heq. apply (Hnew y Hy). cbn in Heq. split; congruence.
  - apply create_ItemCarrinho_inv in H
      as (r' & Hprep & -> & _ & _ & _ & _ & Hnew).
    apply ItemCarrinho_db_prep_keeps in Hprep as (Hp & Hpr & _).
    constructor; cbn; try assumption.
    apply NoDup_fmap_snoc; [assumption |].
    intros y Hy Heq. apply (Hnew y Hy). cbn in Heq. split; congruence.
  - apply create_Estoque_inv in H as (-> & _ & _ & Hnew).
    constructor; cbn; try assumption.
    apply NoDup_fmap_snoc; [assumption |].
    intros y Hy Heq. now apply (Hnew y Hy).
  - apply create_Carrinho_inv in H as (-> & _ & _ & Hnew).
    constructor; cbn; try assumption.
    apply NoDup_fmap_snoc; [assumption |].
    intros y Hy Heq. now apply (Hnew y Hy).
  - rewrite delete_Categoria_eq. now constructor.
  - constructor; cbn; try assumption; now apply NoDup_fmap_filter.
  - constructor; cbn; try assumption; now apply NoDup_fmap_filter.
Qed.

Lemma consistent_step (backend : Django.Backend) (db db' : DB) :
  Writes.step backend db db' →
  Integrity.consistent db → Integrity.consistent db'.
Proof.
  intros Hstep [Hpc Hpe Hipp Hipr Hap Hac Hep Hpp Hcc Hicc Hicp].
  destruct Hstep as [t k p db' H | k r db' H | t k r db' H | k r db' H
                    | t k r db' H | t k r db' H | c | p | c].
  - apply create_Produto_inv in H as (p' & Hprep & -> & _ & Hcat).
    apply Produto_db_prep_keeps in Hprep as [_ Hsame].
    cbn [Produto.stamp Produto.categoria] in Hsame.
    constructor; cbn; try assumption;
      try (intros; apply ids_snoc; eauto; fail).
    intros p'' c Hp' Hc. apply elem_of_app in Hp' as [Hp' | Hp']; [eauto |].
    apply list_elem_of_singleton in Hp' as ->. cbn in Hc.
    apply Hcat. congruence.
  - apply create_ItemPedido_inv in H as (r' & Hprep & -> & _ & _ & Hp & Hpr & _).
    apply ItemPedido_db_prep_keeps in Hprep as (Hp' & Hpr' & _).
    constructor; cbn; try assumption.
    + intros x Hx. apply elem_of_app in Hx as [Hx | Hx]; [eauto |].
      apply list_elem_of_singleton in Hx as ->. cbn. now rewrite Hp'.
    + intros x Hx. apply elem_of_app in Hx as [Hx | Hx]; [eauto |].
      apply list_elem_of_singleton in Hx as ->. cbn. now rewrite Hpr'.
  - apply create_AvaliacaoProduto_inv in H as (_ & -> & _ & _ & Hp & Hpr & _).
    constructor; cbn; try assumption.
    + intros x Hx. apply elem_of_app in Hx as [Hx | Hx]; [eauto |].
      now apply list_elem_of_singleton in Hx as ->.
    + intros x Hx. apply elem_of_app in Hx as [Hx | Hx]; [eauto |].
      now apply list_elem_of_singleton in Hx as ->.
  - apply create_ItemCarrinho_inv in H
      as (r' & Hprep & -> & _ & _ & Hp & Hpr & _).
    apply ItemCarrinho_db_prep_keeps in Hprep as (Hp' & Hpr' & _).
    constructor; cbn; try assumption.
    + intros x Hx. apply elem_of_app in Hx as [Hx | Hx]; [eauto |].
      apply list_elem_of_singleton in Hx as ->. cbn. now rewrite Hp'.
    + intros x Hx. apply elem_of_app in Hx as [Hx | Hx]; [eauto |].
      apply list_elem_of_singleton in Hx as ->. cbn. now rewrite Hpr'.
  - apply create_Estoque_inv in H as (-> & _ & Hp & _).
    constructor; cbn; try assumption.
    intros x Hx. apply elem_of_app in Hx as [Hx | Hx]; [eauto |].
    now apply list_elem_of_singleton in Hx as ->.
  - apply create_Carrinho_inv in H as (-> & _ & Hp & _).
    constructor; cbn; try assumption;
      try (intros; apply ids_snoc; eauto; fail).
    intros x Hx. apply elem_of_app in Hx as [Hx | Hx]; [eauto |].
    now apply list_elem_of_singleton in Hx as ->.
  - rewrite delete_Categoria_eq.
    constructor; cbn; rewrite ?set_null_ids; try assumption.
    intros p' c' Hp' Hc'. unfold Django.set_null_rows in Hp'.
    apply list_elem_of_fmap in Hp' as (p & -> & Hp).
    destruct (decide (Produto.categoria p = Some (Categoria.id c))) as [E | E];
      [discriminate Hc' |].
    apply ids_filter; [eauto |].
    intros x Hx. congruence.
  - unfold Lifecycle.delete_Produto, Store.delete_produtos.
    constructor; cbn.
    + intros p' c Hp' Hc. apply list_elem_of_filter in Hp' as [_ Hp']. eauto.
    + assumption.
    + intros r Hr. apply list_elem_of_filter in Hr as [_ Hr]. eauto.
    + intros r Hr. apply list_elem_of_filter in Hr as [Hn Hr].
      apply ids_filter; [eauto |]. intros x Hx. now rewrite Hx.
    + intros r Hr. apply list_elem_of_filter in Hr as [Hn Hr].
      apply ids_filter; [eauto |]. intros x Hx. now rewrite Hx.
    + intros r Hr. apply list_elem_of_filter in Hr as [_ Hr]. eauto.
    + intros r Hr. apply list_elem_of_filter in Hr as [Hn Hr].
      apply ids_filter; [eauto |]. intros x Hx. now rewrite Hx.
    + intros r Hr. apply list_elem_of_filter in Hr as [Hn Hr].
      apply ids_filter; [eauto |]. intros x Hx. now rewrite Hx.
    + assumption.
    + intros r Hr. apply list_elem_of_filter in Hr as [_ Hr]. eauto.
    + intros r Hr. apply list_elem_of_filter in Hr as [Hn Hr].
      apply ids_filter; [eauto |]. intros x Hx. now rewrite Hx.
  - unfold Lifecycle.delete_Carrinho.
    constructor; cbn; try assumption.
    + intros r Hr. apply list_elem_of_filter in Hr as [_ Hr]. eauto.
    + intros r Hr. apply list_elem_of_filter in Hr as [Hn Hr].
      apply ids_filter; [eauto |]. intros x Hx. now rewrite Hx.
    + intros r Hr. apply list_elem_of_filter in Hr as [_ Hr]. eauto.
Qed.

(** X12: along every sequence of writes, whatever the database, no two stored
    rows come to share a key declared unique: the (order, product),
    (product, customer) and (cart, product) pairs, the product of a stock row
    and the customer of a cart. *)
Theorem unique_keys_invariant (backend : Django.Backend) (db db' : DB) :
  rtc (Writes.step backend) db db' →
  Integrity.unique_keys db → Integrity.unique_keys db'.
Proof.
  induction 1 as [| db db1 db' Hstep _ IH]; [trivial |].
  intros Hu. apply IH. now apply (unique_keys_step backend db).
Qed.

(** X13: along every sequence of writes, whatever the database, every foreign
    key keeps naming a stored row. *)
Theorem consistent_invariant (backend : Django.Backend) (db db' : DB) :
  rtc (Writes.step backend) db db' →
  Integrity.consistent db → Integrity.consistent db'.
Proof.
  induction 1 as [| db db1 db' Hstep _ IH]; [trivial |].
  intros Hc. apply IH. now apply (consistent_step backend db).
Qed.

Lemma loja_unique_keys : Integrity.unique_keys Sample.loja.
Proof. constructor; cbn; repeat constructor; set_solver. Qed.

Lemma loja_consistent : Integrity.consistent Sample.loja.
Proof.
  constructor; cbn; intros;
    repeat match goal with
           | H : _ ∈ _ :: _ |- _ => apply elem_of_cons in H as [-> | H]
           | H : _ ∈ [] |- _ => now apply elem_of_nil in H
           end;
    cbn in *; simplify_eq; set_solver.
Qed.

Lemma loja_one_item_written :
  Writes.step Django.sqlite Sample.loja Sample.loja_one_item.
Proof.
  apply (Writes.create_ItemPedido _ _ 1 (ItemPedido.Make 0 1 7 2 10.00 20.00)).
  reflexivity.
Qed.

Lemma unique_keys_invariant_witness : Integrity.unique_keys Sample.loja_one_item.
Proof.
  apply (unique_keys_invariant Django.sqlite Sample.loja).
  - apply rtc_once. exact loja_one_item_written.
  - exact loja_unique_keys.
Defined.

Lemma consistent_invariant_witness : Integrity.consistent Sample.loja_one_item.
Proof.
  apply (consistent_invariant Django.sqlite Sample.loja).
  - apply rtc_once. exact loja_one_item_written.
  - exact loja_consistent.
Defined.

(** ** Forward accessors *)

Lemma get_Produto_found (db : DB) (ref : Z) :
  ref ∈ Produto.id <$> produtos db →
  ∃ p, p ∈ produtos db ∧ Produto.id p = ref
       ∧ Related.get_Produto db ref = Related.Found p.
Proof.
  intros Hin. unfold Related.get_Produto.
  destruct (find _ (produtos db)) as [p |] eqn:Hf.
  - apply find_some in Hf as [Hp Hid]. apply list_elem_of_In in Hp.
    apply Z.eqb_eq in Hid. eauto.
  - apply list_elem_of_fmap in Hin as (q & -> & Hq).
    apply list_elem_of_In in Hq. apply (find_none _ _ Hf) in Hq.
    apply Z.eqb_neq in Hq. congruence.
Qed.

Lemma get_Produto_missing (db : DB) (ref : Z) :
  ref ∉ Produto.id <$> produtos db →
  Related.get_Produto db ref = Related.DoesNotExist "Produto" ref.
Proof.
  intros Hnot. unfold Related.get_Produto.
  destruct (find _ (produtos db)) as [p |] eqn:Hf; [| reflexivity].
  apply find_some in Hf as [Hp Hid]. apply list_elem_of_In in Hp.
  apply Z.eqb_eq in Hid. exfalso. apply Hnot.
  apply list_elem_of_fmap. eauto.
Qed.

(** X16: when every foreign key names a stored row, [nome_produto] of a
    stored order item or cart item never raises [DoesNotExist]: it is the
    name of a stored product whose key is the item's [produto]; and for an
    item whose product is not stored it raises. *)
Theorem nome_produto_found (db : DB) :
  Integrity.consistent db →
  (∀ r, r ∈ itens_pedido db →
        ∃ p, p ∈ produtos db ∧ Produto.id p = ItemPedido.produto r
             ∧ ItemPedidoProps.nome_produto db r = Related.Found (Produto.nome p))
  ∧ (∀ r, r ∈ itens_carrinho db →
          ∃ p, p ∈ produtos db ∧ Produto.id p = ItemCarrinho.produto r
               ∧ ItemCarrinhoProps.nome_produto db r
                 = Related.Found (Produto.nome p))
  ∧ (∀ r : ItemPedido.t, ItemPedido.produto r ∉ Produto.id <$> produtos db →
        ItemPedidoProps.nome_produto db r
        = Related.DoesNotExist "Produto" (ItemPedido.produto r)).
Proof.
  intros Hc. split; [| split].
  - intros r Hr.
    destruct (get_Produto_found db (ItemPedido.produto r)) as (p & Hp & Hid & Hg).
    { now apply (Integrity.item_pedido_produto db Hc). }
    exists p. unfold ItemPedidoProps.nome_produto. now rewrite Hg.
  - intros r Hr.
    destruct (get_Produto_found db (ItemCarrinho.produto r)) as (p & Hp & Hid & Hg).
    { now apply (Integrity.item_carrinho_produto db Hc). }
    exists p. unfold ItemCarrinhoProps.nome_produto. now rewrite Hg.
  - intros r Hr. unfold ItemPedidoProps.nome_produto.
    now rewrite get_Produto_missing.
Qed.

Lemma nome_produto_found_witness :
  ∃ p, p ∈ produtos Sample.loja_one_item ∧ Produto.id p = 7
       ∧ ItemPedidoProps.nome_produto Sample.loja_one_item
           (ItemPedido.Make 1 1 7 2 10.00 20.00)
         = Related.Found (Produto.nome p).
Proof.
  apply (proj1 (nome_produto_found Sample.loja_one_item
                  (consistent_step Django.sqlite Sample.loja
                     Sample.loja_one_item loja_one_item_written
                     loja_consistent))
           (ItemPedido.Make 1 1 7 2 10.00 20.00)).
  apply list_elem_of_here.
Defined.

(** ** One-to-one relations *)





(** ** The loop of total_carrinho *)

Lemma sum_subtotals_acc (items : list ItemCarrinho.t) (acc : Q) :
  (fold_left (λ total item, total + ItemCarrinho.subtotal item) items acc
   == acc + CarrinhoProps.sum_subtotals items)%Q.
Proof.
  unfold CarrinhoProps.sum_subtotals. revert acc.
  induction items as [| x items IH]; intros acc; cbn [fold_left].
  - ring.
  - rewrite IH, (IH (0 + ItemCarrinho.subtotal x)%Q). ring.
Qed.

Lemma sum_subtotals_cons (x : ItemCarrinho.t) (items : list ItemCarrinho.t) :
  (CarrinhoProps.sum_subtotals (x :: items)
   == ItemCarrinho.subtotal x + CarrinhoProps.sum_subtotals items)%Q.
Proof.
  unfold CarrinhoProps.sum_subtotals at 1. cbn [fold_left].
  rewrite sum_subtotals_acc. ring.
Qed.

Lemma sum_subtotals_app (l1 l2 : list ItemCarrinho.t) :
  (CarrinhoProps.sum_subtotals (l1 ++ l2)
   == CarrinhoProps.sum_subtotals l1 + CarrinhoProps.sum_subtotals l2)%Q.
Proof.
  induction l1 as [| x l1 IH]; cbn [app].
  - unfold CarrinhoProps.sum_subtotals at 2. cbn. ring.
  - rewrite !sum_subtotals_cons, IH. ring.
Qed.

(** X18: the sum the loop of [total_carrinho] accumulates does not depend
    on the order in which the items come, and over two runs of items put end
    to end it is the sum of the two sums. *)
Theorem sum_subtotals_order (l1 l2 : list ItemCarrinho.t) :
  (l1 ≡ₚ l2 →
   (CarrinhoProps.sum_subtotals l1 == CarrinhoProps.sum_subtotals l2)%Q)
  ∧ (CarrinhoProps.sum_subtotals (l1 ++ l2)
     == CarrinhoProps.sum_subtotals l1 + CarrinhoProps.sum_subtotals l2)%Q.
Proof.
  split; [| apply sum_subtotals_app].
  induction 1 as [| x l l' _ IH | x y l | l l' l'' _ IH1 _ IH2].
  - reflexivity.
  - now rewrite !sum_subtotals_cons, IH.
  - rewrite !sum_subtotals_cons. ring.
  - now rewrite IH1.
Qed.

Lemma sum_subtotals_order_witness :
  (CarrinhoProps.sum_subtotals
     [ItemCarrinho.Make 1 1 7 2 10.00 20.00; ItemCarrinho.Make 2 1 8 1 5.00 5.00]
   == CarrinhoProps.sum_subtotals
        [ItemCarrinho.Make 2 1 8 1 5.00 5.00; ItemCarrinho.Make 1 1 7 2 10.00 20.00])%Q.
Proof.
  apply (proj1 (sum_subtotals_order _ _)). apply Permutation_swap.
Defined.

(** ** Managers after a write *)





(** X20: a cart item that was created is reached from its cart through
    [itens], as its columns hold it -- unit price and subtotal as the
    database takes them for a decimal column of 10 digits with 2 places,
    which on SQLite is rounded to 2 places -- together with the items the
    cart had: the cart has one item more and the sum of the subtotals has
    grown by the stored subtotal of the new item; the items of every other
    cart are those it had. *)
Theorem itens_after_create (backend : Django.Backend) (db db' : DB) (k : Z)
    (r : ItemCarrinho.t) (c : Carrinho.t) :
  Store.create_ItemCarrinho backend db k r = Py.Ok db' →
  ∃ qs qs',
    CarrinhoProps.manager db c "itens" = Py.Ok qs
    ∧ CarrinhoProps.manager db' c "itens" = Py.Ok qs'
    ∧ (ItemCarrinho.carrinho r = Carrinho.id c →
       ∃ pu st,
         Django.adapt_decimalfield_value backend 10 2 (ItemCarrinho.preco_unitario r) = Some pu
         ∧ Django.adapt_decimalfield_value backend 10 2 (ItemCarrinho.subtotal r) = Some st
         ∧ qs' ≡ₚ ItemCarrinho.Make k (ItemCarrinho.carrinho r)
                    (ItemCarrinho.produto r) (ItemCarrinho.quantidade r) pu st
                  :: qs
         ∧ Django.count qs' = Django.count qs + 1
         ∧ (CarrinhoProps.sum_subtotals qs'
            == CarrinhoProps.sum_subtotals qs + st)%Q)
    ∧ (ItemCarrinho.carrinho r ≠ Carrinho.id c → qs' ≡ₚ qs).
Proof.
  intros Hok.
  apply create_ItemCarrinho_inv in Hok as (r' & Hprep & -> & _).
  apply ItemCarrinho_db_prep_Ok in Hprep as (pu & st & Hpu & Hst & _ & ->).
  rewrite !manager_itens. cbn [itens_carrinho with_itens_carrinho].
  rewrite filter_app. eexists _, _.
  split; [reflexivity | split; [reflexivity | split]].
  - intros Heq. exists pu, st. split; [exact Hpu | split; [exact Hst |]].
    rewrite filter_cons_True by exact Heq. rewrite filter_nil.
    cbn [ItemCarrinho.set_id ItemCarrinho.carrinho ItemCarrinho.produto
         ItemCarrinho.quantidade ItemCarrinho.preco_unitario
         ItemCarrinho.subtotal].
    split; [| split].
    + symmetry. apply Permutation_cons_append.
    + unfold Django.count. rewrite length_app. cbn. lia.
    + rewrite sum_subtotals_app, sum_subtotals_cons.
      unfold CarrinhoProps.sum_subtotals at 2. cbn. ring.
  - intros Hne. rewrite filter_cons_False by exact Hne.
    rewrite filter_nil. now rewrite app_nil_r.
Qed.

Lemma itens_after_create_witness :
  ∃ qs qs',
    CarrinhoProps.manager Sample.loja Sample.carrinho "itens" = Py.Ok qs
    ∧ CarrinhoProps.manager
        (with_itens_carrinho [ItemCarrinho.Make 1 1 7 2 10.00 0.12] Sample.loja)
        Sample.carrinho "itens" = Py.Ok qs'
    ∧ (CarrinhoProps.sum_subtotals qs'
       == CarrinhoProps.sum_subtotals qs + 0.12)%Q.
Proof.
  destruct (itens_after_create Django.sqlite Sample.loja _ 1
              (ItemCarrinho.Make 0 1 7 2 10.00 0.125) Sample.carrinho eq_refl)
    as (qs & qs' & Hqs & Hqs' & Hsame & _).
  exists qs, qs'. split; [exact Hqs | split; [exact Hqs' |]].
  destruct (Hsame eq_refl) as (pu & st & _ & Hst & _ & _ & Hsum).
  injection Hst as <-. exact Hsum.
Defined.

(** ** Produto.em_estoque *)

(** X21: [em_estoque] is true exactly when the stock is above 0; for a
    stock that passes the validation of [estoque], whatever the database,
    not in stock means a stock of exactly 0; and a product that holds the
    default stock is not in stock. *)
Theorem em_estoque_validated (p : Produto.t) :
  (Produto.em_estoque p = true ↔ Produto.estoque p > 0)
  ∧ (∀ backend,
        Django.clean backend Produto.estoque_field (Some (Produto.estoque p)) = [] →
        (Produto.em_estoque p = false ↔ Produto.estoque p = 0))
  ∧ (Django.get_default Produto.estoque_field None = Some (Produto.estoque p) →
     Produto.em_estoque p = false).
Proof.
  unfold Produto.em_estoque. split; [| split].
  - apply bool_decide_eq_true.
  - intros backend Hclean.
    apply (clean_min_zero backend Produto.estoque_field (Produto.estoque p)
             eq_refl eq_refl (list_elem_of_here _ _)) in Hclean.
    rewrite bool_decide_eq_false. lia.
  - intros [= <-]. reflexivity.
Qed.

Lemma em_estoque_validated_witness :
  Produto.em_estoque (Produto.Make 8 "B" "" 5.00 (Some 1) false 0 0 0) = false.
Proof.
  exact (proj2 (proj2 (em_estoque_validated
                         (Produto.Make 8 "B" "" 5.00 (Some 1) false 0 0 0)))
           eq_refl).
Defined.
